(** * digital_ingest_trigger: the Lambda handler that starts ECS tasks

    A shallow embedding of [src/handle_digital_ingest_trigger.py] and the
    properties of its three functions: [get_config], [run_task] and
    [lambda_handler].

    Python values are the JSON-shaped data the handler receives and the
    dictionaries the AWS SDK hands back.  Dictionaries of events keep their
    insertion order (it shows in [str(event)]), so they are association
    lists; the configuration dictionary is only ever looked up and compared,
    so it is a finite map.  Exceptions are values of [exn]; the calls made
    to the ECS service are collected in a trace. *)

From Stdlib Require Import ZArith String Ascii List Lia.
From stdpp Require Import base option list strings gmap pretty.

Set Warnings "-register-all".

#[local] Arguments String.append !_ _ /.

Local Open Scope Z_scope.

(** ** Python values *)

(** JSON numbers are restricted to integers; a string is a sequence of
    code points below 256.  [VObject] stands for an object outside JSON's
    types (a [datetime] in an SDK response), known by its [str()] and
    [repr()] texts. *)
Inductive value : Type :=
| VNone
| VBool (b : bool)
| VInt (n : Z)
| VStr (s : string)
| VList (items : list value)
| VDict (entries : list (string * value))
| VObject (str_text repr_text : string).

Inductive exn : Type :=
| KeyError (key : value)
| IndexError
| TypeError
| AttributeError (attr : string)
| GenericException (msg : string)
| ServiceError (code : string).

Inductive result (A : Type) : Type :=
| Ok (a : A)
| Raise (e : exn).
Arguments Ok {A} a.
Arguments Raise {A} e.

#[global] Instance result_ret : MRet result := fun A a => Ok a.
#[global] Instance result_bind : MBind result := fun A B f m =>
  match m with
  | Ok a => f a
  | Raise e => Raise e
  end.

(** ** Operations of the language the source relies on *)

Module Py.

(** [d.get(k)] on the entries of a dict: the first entry under [k]. *)
Fixpoint dict_get (k : string) (d : list (string * value)) : option value :=
  match d with
  | [] => None
  | (k', v) :: d' => if String.eqb k k' then Some v else dict_get k d'
  end.

(** [bool(v)], as an [if] tests it. *)
Definition truthy (v : value) : bool :=
  match v with
  | VNone => false
  | VBool b => b
  | VInt n => negb (n =? 0)
  | VStr s => negb (String.eqb s "")
  | VList l => match l with [] => false | _ => true end
  | VDict d => match d with [] => false | _ => true end
  | VObject _ _ => true
  end.

(** [l[i]] on a sequence: negative indices count from the end, an index
    out of range raises [IndexError]. *)
Definition index {A} (l : list A) (i : Z) : result A :=
  let j := if i <? 0 then i + Z.of_nat (length l) else i in
  if j <? 0 then Raise IndexError
  else match l !! Z.to_nat j with
       | Some x => Ok x
       | None => Raise IndexError
       end.

Definition chars (s : string) : list value :=
  map (fun c => VStr (String c "")) (list_ascii_of_string s).

(** [v[k]] with a string key. *)
Definition getitem (v : value) (k : string) : result value :=
  match v with
  | VDict d =>
      match dict_get k d with
      | Some x => Ok x
      | None => Raise (KeyError (VStr k))
      end
  | _ => Raise TypeError
  end.

(** [v[i]] with an integer. *)
Definition getitem_int (v : value) (i : Z) : result value :=
  match v with
  | VList l => index l i
  | VStr s => index (chars s) i
  | VDict _ => Raise (KeyError (VInt i))
  | _ => Raise TypeError
  end.

(** [v.get(k, default)]; only dicts have the method. *)
Definition get (v : value) (k : string) (default : value) : result value :=
  match v with
  | VDict d => Ok (from_option id default (dict_get k d))
  | _ => Raise (AttributeError "get")
  end.

(** [s.split(sep)] for a one-character separator. *)
Fixpoint split_str (sep : ascii) (s : string) : list string :=
  match s with
  | EmptyString => [""]
  | String c s' =>
      if Ascii.eqb c sep then "" :: split_str sep s'
      else match split_str sep s' with
           | h :: t => String c h :: t
           | [] => [String c ""]
           end
  end.

Definition split (v : value) (sep : ascii) : result (list string) :=
  match v with
  | VStr s => Ok (split_str sep s)
  | _ => Raise (AttributeError "split")
  end.

(** What a [for] loop iterates over. *)
Definition iter (v : value) : result (list value) :=
  match v with
  | VList l => Ok l
  | VDict d => Ok (map (fun kv => VStr kv.1) d)
  | VStr s => Ok (chars s)
  | _ => Raise TypeError
  end.

(** [v == s] for a string [s]. *)
Definition eq_str (v : value) (s : string) : bool :=
  match v with
  | VStr t => String.eqb t s
  | _ => false
  end.

(** [v in [s1, s2, ...]]. *)
Definition in_strs (v : value) (l : list string) : bool :=
  existsb (eq_str v) l.

(** *** Text of a value: [repr], [str] and [json.dumps] *)

Definition dquote : ascii := ascii_of_N 34.
Definition squote : ascii := ascii_of_N 39.
Definition backslash : ascii := ascii_of_N 92.

Definition hex_digit (n : N) : ascii :=
  if (n <? 10)%N then ascii_of_N (48 + n) else ascii_of_N (87 + n).

Definition hex2 (c : ascii) : string :=
  let n := N_of_ascii c in
  String (hex_digit (n / 16)) (String (hex_digit (n mod 16)) "").

Fixpoint concat_map (f : ascii -> string) (s : string) : string :=
  match s with
  | EmptyString => ""
  | String c s' => f c +:+ concat_map f s'
  end.

Fixpoint contains_char (c : ascii) (s : string) : bool :=
  match s with
  | EmptyString => false
  | String c' s' => Ascii.eqb c' c || contains_char c s'
  end.

(** [str.isprintable] on one code point below 256. *)
Definition printable (c : ascii) : bool :=
  let n := N_of_ascii c in
  ((32 <=? n) && (n <? 127) || (161 <=? n) && negb (n =? 173))%N.

Definition repr_char (quote c : ascii) : string :=
  let n := N_of_ascii c in
  if Ascii.eqb c quote || Ascii.eqb c backslash then String backslash (String c "")
  else if (n =? 9)%N then String backslash "t"
  else if (n =? 10)%N then String backslash "n"
  else if (n =? 13)%N then String backslash "r"
  else if printable c then String c ""
  else String backslash ("x" +:+ hex2 c).

(** [repr(s)]: single quotes unless the text has one and no double
    quote. *)
Definition repr_str (s : string) : string :=
  let quote :=
    if contains_char squote s && negb (contains_char dquote s)
    then dquote else squote in
  String quote (concat_map (repr_char quote) s +:+ String quote "").

Fixpoint join (sep : string) (l : list string) : string :=
  match l with
  | [] => ""
  | [x] => x
  | x :: l' => x +:+ sep +:+ join sep l'
  end.

Fixpoint repr (v : value) : string :=
  match v with
  | VNone => "None"
  | VBool true => "True"
  | VBool false => "False"
  | VInt n => pretty n
  | VStr s => repr_str s
  | VList l => "[" +:+ join ", " (map repr l) +:+ "]"
  | VDict d =>
      "{" +:+ join ", " (map (fun '(k, x) => repr_str k +:+ ": " +:+ repr x) d)
          +:+ "}"
  | VObject _ r => r
  end.

(** [str(v)], which is what an f-string field [{v}] inserts. *)
Definition str (v : value) : string :=
  match v with
  | VStr s => s
  | VObject t _ => t
  | _ => repr v
  end.

(** One character of a JSON string under [ensure_ascii]. *)
Definition json_char (c : ascii) : string :=
  let n := N_of_ascii c in
  if Ascii.eqb c dquote || Ascii.eqb c backslash then String backslash (String c "")
  else if (n =? 8)%N then String backslash "b"
  else if (n =? 12)%N then String backslash "f"
  else if (n =? 10)%N then String backslash "n"
  else if (n =? 13)%N then String backslash "r"
  else if (n =? 9)%N then String backslash "t"
  else if ((32 <=? n) && (n <=? 126))%N then String c ""
  else String backslash ("u00" +:+ hex2 c).

Definition json_str (s : string) : string :=
  String dquote (concat_map json_char s +:+ String dquote "").

(** [json.dumps(v, default=str)]: objects JSON does not know are
    written as the JSON string of their [str()]. *)
Fixpoint json_dumps (v : value) : string :=
  match v with
  | VNone => "null"
  | VBool true => "true"
  | VBool false => "false"
  | VInt n => pretty n
  | VStr s => json_str s
  | VList l => "[" +:+ join ", " (map json_dumps l) +:+ "]"
  | VDict d =>
      "{" +:+ join ", " (map (fun '(k, x) => json_str k +:+ ": " +:+ json_dumps x) d)
          +:+ "}"
  | VObject t _ => json_str t
  end.

End Py.

(** ** The AWS SDK, as the handler sees it *)

(** Keyword arguments of the ECS [run_task] call. *)
Record run_task_kwargs : Type := RunTaskKwargs {
  cluster : value;
  launchType : value;
  networkConfiguration : value;
  taskDefinition : value;
  count : value;
  startedBy : value;
  overrides : value
}.

(** The SSM client: [get_parameters_by_path(Path, Recursive, WithDecryption)]. *)
Record ssm_client : Type := SsmClient {
  get_parameters_by_path : string -> bool -> bool -> result value
}.

(** The ECS client: its [run_task] answers with a task description or
    raises. *)
Record ecs_client : Type := EcsClient {
  ecs_run_task : run_task_kwargs -> result value
}.

(** [boto3.client(service, region_name=...)] for the two services used. *)
Record sdk : Type := Sdk {
  client_ssm : string -> result ssm_client;
  client_ecs : string -> result ecs_client
}.

(** ** Effects of the handler: the trace of ECS launches and the outcome *)

Record act (A : Type) : Type := Act {
  launches : list run_task_kwargs;
  outcome : result A
}.
Arguments Act {A} launches outcome.
Arguments launches {A} a.
Arguments outcome {A} a.

#[global] Instance act_ret : MRet act := fun A a => Act [] (Ok a).
#[global] Instance act_bind : MBind act := fun A B f m =>
  match outcome m with
  | Ok a => Act (launches m ++ launches (f a)) (outcome (f a))
  | Raise e => Act (launches m) (Raise e)
  end.

(** A step that makes no call. *)
Definition lift {A} (r : result A) : act A := Act [] r.

Definition raise {A} (e : exn) : act A := Act [] (Raise e).

(** The call itself: one entry in the trace, whatever the service answers. *)
Definition call_run_task (c : ecs_client) (kwargs : run_task_kwargs) : act value :=
  Act [kwargs] (ecs_run_task c kwargs).

(** ** The module *)

Definition START_STATUS : string := "START".

Section Trigger.

(** The process environment and the SDK the module is loaded with. *)
Variable environ : gmap string string.
Variable boto3 : sdk.

(** [environ.get(k)] inside an f-string: an unset variable reads [None]. *)
Definition environ_field (k : string) : string :=
  match environ !! k with
  | Some s => s
  | None => "None"
  end.

Definition full_config_path : string :=
  "/" +:+ environ_field "ENV" +:+ "/" +:+ environ_field "APP_CONFIG_PATH".

(** [environ.get('AWS_DEFAULT_REGION', 'us-east-1')] *)
Definition region_name : string :=
  default "us-east-1" (environ !! "AWS_DEFAULT_REGION").

(** One turn of the loop of [get_config]. *)
Definition load_param (param : value) (configuration : gmap string value)
  : result (gmap string value) :=
  name ← Py.get param "Name" VNone;
  param_path_array ← Py.split name "/";
  let section_position := Z.of_nat (length param_path_array) - 1 in
  section_name ← Py.index param_path_array section_position;
  v ← Py.get param "Value" VNone;
  Ok (<[section_name := v]> configuration).

(** The loop: it stops at the first exception and leaves the entries
    stored so far. *)
Fixpoint load_params (params : list value) (configuration : gmap string value)
  : gmap string value * option exn :=
  match params with
  | [] => (configuration, None)
  | param :: rest =>
      match load_param param configuration with
      | Ok configuration' => load_params rest configuration'
      | Raise e => (configuration, Some e)
      end
  end.

(** [try: ... except BaseException: ... finally: return configuration] *)
Definition get_config (ssm_parameter_path : string) : gmap string value :=
  let configuration : gmap string value := ∅ in
  let attempt :=
    ssm ← client_ssm boto3 region_name;
    param_details ← get_parameters_by_path ssm ssm_parameter_path false true;
    parameters ← Py.get param_details "Parameters" (VList []);
    params ← Py.iter parameters;
    Ok (load_params params configuration) in
  match attempt with
  | Ok (configuration', _) => configuration'
  | Raise _ => configuration
  end.

(** [config.get(k)] *)
Definition config_get (config : gmap string value) (k : string) : value :=
  default VNone (config !! k).

Definition run_task (ecs : ecs_client) (config : gmap string value)
    (task_definition environment : value) : act value :=
  call_run_task ecs {|
    cluster := config_get config "ECS_CLUSTER";
    launchType := VStr "FARGATE";
    networkConfiguration :=
      VDict [("awsvpcConfiguration",
              VDict [("subnets", VList [config_get config "ECS_SUBNET"]);
                     ("securityGroups", VList []);
                     ("assignPublicIp", VStr "DISABLED")])];
    taskDefinition := task_definition;
    count := VInt 1;
    startedBy := VStr "lambda/digital_ingest_trigger";
    overrides :=
      VDict [("containerOverrides",
              VList [VDict [("name", task_definition);
                            ("environment", environment)]])]
  |}.

(** [event['Records'][0]] *)
Definition first_record (event : value) : result value :=
  records ← Py.getitem event "Records";
  Py.getitem_int records 0.

Definition package_environment (package_id : value) : value :=
  VList [VDict [("name", VStr "PACKAGE_ID"); ("value", package_id)]].

(** The body of the branch for S3 events. *)
Definition handle_s3 (ecs : ecs_client) (config : gmap string value)
    (event : value) : act value :=
  event_type ← lift (r ← first_record event; Py.getitem r "eventName");
  let response := VStr ("Nothing to do for S3 event: " +:+ Py.str event) in
  if Py.in_strs event_type
       ["ObjectCreated:Put"; "ObjectCreated:CompleteMultipartUpload"]
  then
    package_id ← lift (r ← first_record event;
                       s3 ← Py.getitem r "s3";
                       object ← Py.getitem s3 "object";
                       key ← Py.getitem object "key";
                       parts ← Py.split key ".";
                       Py.index parts 0);
    let environment := package_environment (VStr package_id) in
    run_task ecs config (VStr "ursa_major") environment
  else mret response.

(** The body of the branch for SNS events. *)
Definition handle_sns (ecs : ecs_client) (config : gmap string value)
    (event : value) : act value :=
  attributes ← lift (r ← first_record event;
                     sns ← Py.getitem r "Sns";
                     Py.getitem sns "MessageAttributes");
  let response := VStr ("Nothing to do for SNS event: " +:+ Py.str event) in
  package_id ← lift (a ← Py.get attributes "package_id" (VDict []);
                     Py.get a "Value" VNone);
  let environment := package_environment package_id in
  status ← lift (a ← Py.get attributes "requested_status" (VDict []);
                 Py.get a "Value" VNone);
  if Py.eq_str status START_STATUS
  then
    task_definition ← lift (service ← Py.getitem attributes "service";
                            Py.getitem service "Value");
    run_task ecs config task_definition environment
  else mret response.

Definition lambda_handler (event : value) : act string :=
  let config := get_config full_config_path in
  ecs ← lift (client_ecs boto3 region_name);
  s3 ← lift (r ← first_record event; Py.get r "s3" VNone);
  response ←
    (if Py.truthy s3 then handle_s3 ecs config event
     else
       sns ← lift (r ← first_record event; Py.get r "Sns" VNone);
       if Py.truthy sns then handle_sns ecs config event
       else raise (GenericException "Unsure how to parse message"));
  mret (Py.json_dumps response).

End Trigger.

(** ** Vocabulary of the specification *)

(** [pre] is the text of [s] before its first [c]: it has no [c], and [s]
    is [pre] alone or [pre], a [c] and a remainder. *)
Definition before_first (c : ascii) (s pre : string) : Prop :=
  Py.contains_char c pre = false ∧ (s = pre ∨ ∃ rest, s = pre +:+ String c rest).

(** [seg] is the text of [s] after its last [c]. *)
Definition after_last (c : ascii) (s seg : string) : Prop :=
  Py.contains_char c seg = false ∧ (s = seg ∨ ∃ pre, s = pre +:+ String c seg).

(** [phrase] occurs in [text]. *)
Definition contains (phrase text : string) : Prop :=
  ∃ pre post, text = pre +:+ phrase +:+ post.

Definition raises {A} (r : result A) : bool :=
  match r with
  | Ok _ => false
  | Raise _ => true
  end.

(** The remote call of [get_config]: a client for the store, then the
    query for the entries under [path]. *)
Definition fetch (environ : gmap string string) (boto3 : sdk) (path : string)
  : result value :=
  ssm ← client_ssm boto3 (region_name environ);
  get_parameters_by_path ssm path false true.

(** Name and value of one entry of the store's answer. *)
Definition store_entry (param : value) : option (string * value) :=
  match param with
  | VDict d =>
      match Py.dict_get "Name" d with
      | Some (VStr name) => Some (name, default VNone (Py.dict_get "Value" d))
      | _ => None
      end
  | _ => None
  end.

(** The path segment the loop stores an entry under. *)
Definition section_name_of (name : string) : string :=
  default "" (last (Py.split_str "/" name)).

Definition store (configuration : gmap string value) (entry : string * value)
  : gmap string value :=
  <[section_name_of entry.1 := entry.2]> configuration.

(** The fields of a launch request the properties speak of. *)
Definition vpc_field (request : run_task_kwargs) (k : string) : result value :=
  vpc ← Py.getitem (networkConfiguration request) "awsvpcConfiguration";
  Py.getitem vpc k.

Definition container_overrides (request : run_task_kwargs) : result value :=
  Py.getitem (overrides request) "containerOverrides".

(** One container override, for the container [name], with [environment]. *)
Definition single_override (name environment : value) : value :=
  VList [VDict [("name", name); ("environment", environment)]].

(** The environment a launch carries: one entry, [PACKAGE_ID]. *)
Definition package_id_only (package_id : value) : value :=
  VList [VDict [("name", VStr "PACKAGE_ID"); ("value", package_id)]].

(** *** The shapes of an envelope *)

(** The test of the first branch: the first record has a truthy [s3]. *)
Definition is_storage_event (event : value) : bool :=
  match r ← first_record event; Py.get r "s3" VNone with
  | Ok s3 => Py.truthy s3
  | Raise _ => false
  end.

(** The test of the second branch, reached when the first fails: the first
    record has a truthy [Sns]. *)
Definition is_topic_event (event : value) : bool :=
  negb (is_storage_event event) &&
  match r ← first_record event; Py.get r "Sns" VNone with
  | Ok sns => Py.truthy sns
  | Raise _ => false
  end.

(** [event_name] and [object_key] of a storage event. *)
Definition event_name (event : value) : result value :=
  r ← first_record event;
  Py.getitem r "eventName".

Definition object_key (event : value) : result value :=
  r ← first_record event;
  s3 ← Py.getitem r "s3";
  object ← Py.getitem s3 "object";
  Py.getitem object "key".

(** The attributes of a topic event, and the value of one of them. *)
Definition message_attributes (event : value) : result value :=
  r ← first_record event;
  sns ← Py.getitem r "Sns";
  Py.getitem sns "MessageAttributes".

Definition attribute_value (attributes : list (string * value)) (name : string)
  : option value :=
  match Py.dict_get name attributes with
  | Some (VDict a) => Py.dict_get "Value" a
  | _ => None
  end.

(** Every attribute is an object, as the topic delivers them
    ([{Type: ..., Value: ...}]). *)
Definition well_formed_attributes (attributes : list (string * value)) : bool :=
  forallb (fun kv => match kv.2 with VDict _ => true | _ => false end) attributes.

(** What the handler returns once a branch has produced [response]. *)
Definition respond (branch : act value) : act string :=
  response ← branch; mret (Py.json_dumps response).

(** The two texts that answer an event with nothing to launch. *)
Definition nothing_to_do (source : string) (event : value) : act value :=
  mret (VStr ("Nothing to do for " +:+ source +:+ " event: " +:+ Py.str event)).

(** ** Fixtures: a store, an orchestrator and events to run the module on *)

Module Fixtures.

Definition environ : gmap string string :=
  {[ "ENV" := "dev"; "APP_CONFIG_PATH" := "digital_ingest_trigger" ]}.

Definition parameter (name text : string) : value :=
  VDict [("Name", VStr name); ("Type", VStr "SecureString"); ("Value", VStr text)].

(** A store that holds [foo = bar] and [baz = buzz] under every path. *)
Definition ssm_foo_baz : ssm_client :=
  SsmClient (fun path _ _ =>
    Ok (VDict [("Parameters",
                VList [parameter (path +:+ "/foo") "bar";
                       parameter (path +:+ "/baz") "buzz"])])).

(** A store that holds the cluster and the subnet. *)
Definition ssm_cluster : ssm_client :=
  SsmClient (fun path _ _ =>
    Ok (VDict [("Parameters",
                VList [parameter (path +:+ "/ECS_CLUSTER") "default";
                       parameter (path +:+ "/ECS_SUBNET") "subnet"])])).

(** A store that cannot be reached. *)
Definition ssm_down : ssm_client :=
  SsmClient (fun _ _ _ => Raise (ServiceError "EndpointConnectionError")).

(** An orchestrator that describes the task it started. *)
Definition ecs_echo : ecs_client :=
  EcsClient (fun kwargs =>
    Ok (VDict [("tasks",
                VList [VDict [("startedBy", startedBy kwargs);
                              ("overrides", overrides kwargs);
                              ("createdAt",
                               VObject "2023-01-01 00:00:00+00:00"
                                       "datetime.datetime(2023, 1, 1, 0, 0)")]]);
               ("failures", VList [])])).

Definition boto3 : sdk := Sdk (fun _ => Ok ssm_cluster) (fun _ => Ok ecs_echo).
Definition boto3_foo_baz : sdk := Sdk (fun _ => Ok ssm_foo_baz) (fun _ => Ok ecs_echo).
Definition boto3_down : sdk := Sdk (fun _ => Ok ssm_down) (fun _ => Ok ecs_echo).

Definition s3_record (event_name key : string) : value :=
  VDict [("eventSource", VStr "aws:s3");
         ("eventName", VStr event_name);
         ("s3", VDict [("bucket", VDict [("name", VStr "ingest")]);
                       ("object", VDict [("key", VStr key); ("size", VInt 1024)])])].

Definition attribute (v : string) : value :=
  VDict [("Type", VStr "String"); ("Value", VStr v)].

Definition sns_record (attributes : list (string * value)) : value :=
  VDict [("EventSource", VStr "aws:sns");
         ("Sns", VDict [("Message", VStr "hello");
                        ("MessageAttributes", VDict attributes)])].

Definition envelope (records : list value) : value :=
  VDict [("Records", VList records)].

Definition s3_put : value :=
  envelope [s3_record "ObjectCreated:Put" "abc123.tar.gz"].

Definition s3_delete : value :=
  envelope [s3_record "ObjectRemoved:Delete" "abc123.tar.gz"].

Definition s3_delete_twice : value :=
  envelope [s3_record "ObjectRemoved:Delete" "abc123.tar.gz";
            s3_record "ObjectRemoved:Delete" "def456.tar.gz"].

Definition start_attributes : list (string * value) :=
  [("package_id", attribute "xyz");
   ("requested_status", attribute "START");
   ("service", attribute "fornax")].

Definition idle_attributes : list (string * value) :=
  [("package_id", attribute "xyz");
   ("requested_status", attribute "IDLE");
   ("service", attribute "fornax")].

Definition sns_start : value := envelope [sns_record start_attributes].

Definition sns_idle : value := envelope [sns_record idle_attributes].

Definition unknown_record : list (string * value) :=
  [("eventSource", VStr "aws:sqs"); ("body", VStr "hello")].

Definition unknown : value := envelope [VDict unknown_record].

(** A record with both entries: a created object and a start request. *)
Definition both_record : list (string * value) :=
  [("eventName", VStr "ObjectCreated:Put");
   ("s3", VDict [("object", VDict [("key", VStr "a.b.tif")])]);
   ("Sns", VDict [("MessageAttributes", VDict start_attributes)])].

Definition both : value := envelope [VDict both_record].

(** A record whose [s3] entry is an empty object. *)
Definition empty_s3_record : list (string * value) := [("s3", VDict [])].

Definition empty_s3 : value := envelope [VDict empty_s3_record].

End Fixtures.

(** ** Further fixtures: stores and events at the edges *)

Module Edge.

(** A store with two entries that end in the same segment. *)
Definition ssm_shadowed : ssm_client :=
  SsmClient (fun path _ _ =>
    Ok (VDict [("Parameters",
                VList [Fixtures.parameter (path +:+ "/ECS_CLUSTER") "old";
                       Fixtures.parameter (path +:+ "/ECS_SUBNET") "subnet";
                       Fixtures.parameter (path +:+ "/next/ECS_CLUSTER") "new"])])).

(** A store whose second entry has no name. *)
Definition ssm_nameless : ssm_client :=
  SsmClient (fun path _ _ =>
    Ok (VDict [("Parameters",
                VList [Fixtures.parameter (path +:+ "/foo") "bar";
                       VDict [("Value", VStr "lost")];
                       Fixtures.parameter (path +:+ "/baz") "buzz"])])).

(** A store that answers without a [Parameters] entry. *)
Definition ssm_bare : ssm_client :=
  SsmClient (fun _ _ _ => Ok (VDict [("NextToken", VStr "t")])).

(** An orchestrator that refuses every task. *)
Definition ecs_refuses : ecs_client :=
  EcsClient (fun _ => Raise (ServiceError "ClusterNotFoundException")).

Definition boto3_shadowed : sdk :=
  Sdk (fun _ => Ok ssm_shadowed) (fun _ => Ok Fixtures.ecs_echo).
Definition boto3_nameless : sdk :=
  Sdk (fun _ => Ok ssm_nameless) (fun _ => Ok Fixtures.ecs_echo).
Definition boto3_bare : sdk :=
  Sdk (fun _ => Ok ssm_bare) (fun _ => Ok Fixtures.ecs_echo).
Definition boto3_refuses : sdk :=
  Sdk (fun _ => Ok Fixtures.ssm_cluster) (fun _ => Ok ecs_refuses).

(** The store of [Fixtures.boto3], renamed: it answers alike at one path
    and differently elsewhere and for other flags. *)
Definition ssm_elsewhere : ssm_client :=
  SsmClient (fun path recursive decrypt =>
    if String.eqb path "/dev/digital_ingest_trigger" && negb recursive && decrypt
    then get_parameters_by_path Fixtures.ssm_cluster path recursive decrypt
    else Raise (ServiceError "AccessDeniedException")).

Definition boto3_elsewhere : sdk :=
  Sdk (fun _ => Ok ssm_elsewhere) (fun _ => Ok Fixtures.ecs_echo).

(** The request [lambda_handler] makes for [Fixtures.s3_put]. *)
Definition put_request : run_task_kwargs :=
  {| cluster := VStr "default";
     launchType := VStr "FARGATE";
     networkConfiguration :=
       VDict [("awsvpcConfiguration",
               VDict [("subnets", VList [VStr "subnet"]);
                      ("securityGroups", VList []);
                      ("assignPublicIp", VStr "DISABLED")])];
     taskDefinition := VStr "ursa_major";
     count := VInt 1;
     startedBy := VStr "lambda/digital_ingest_trigger";
     overrides :=
       VDict [("containerOverrides",
               VList [VDict [("name", VStr "ursa_major");
                             ("environment",
                              VList [VDict [("name", VStr "PACKAGE_ID");
                                            ("value", VStr "abc123")]])]])] |}.


Definition no_records : list (string * value) := [("detail-type", VStr "Scheduled Event")].

Definition empty_records : list (string * value) := [("Records", VList [])].

(** A storage record without [eventName]. *)
Definition nameless_record : list (string * value) :=
  [("s3", VDict [("object", VDict [("key", VStr "abc123.tar.gz")])])].

(** Creation records whose key is missing, and is a number. *)
Definition keyless_record : list (string * value) :=
  [("eventName", VStr "ObjectCreated:Put");
   ("s3", VDict [("object", VDict [("size", VInt 1024)])])].

Definition numbered_record : list (string * value) :=
  [("eventName", VStr "ObjectCreated:Put");
   ("s3", VDict [("object", VDict [("key", VInt 7)])])].

(** Start requests without a service, and with a service without value. *)
Definition serviceless_attributes : list (string * value) :=
  [("package_id", Fixtures.attribute "xyz");
   ("requested_status", Fixtures.attribute "START")].

Definition valueless_attributes : list (string * value) :=
  [("requested_status", Fixtures.attribute "START");
   ("service", VDict [("Type", VStr "String")])].

(** An idle request whose [package_id] is a bare text. *)
Definition bare_attributes : list (string * value) :=
  [("package_id", VStr "xyz");
   ("requested_status", Fixtures.attribute "IDLE")].

End Edge.

(** ** Facts about the language operations *)

Section StringFacts.

Implicit Types (c : ascii) (s : string).

Lemma append_nil_r s : s +:+ "" = s.
Proof. induction s as [|a s IH]; simpl; [done | by rewrite IH]. Qed.

Lemma append_assoc s1 s2 s3 : (s1 +:+ s2) +:+ s3 = s1 +:+ (s2 +:+ s3).
Proof. induction s1 as [|a s1 IH]; simpl; [done | by rewrite IH]. Qed.

Lemma concat_map_app f s1 s2 :
  Py.concat_map f (s1 +:+ s2) = Py.concat_map f s1 +:+ Py.concat_map f s2.
Proof.
  induction s1 as [|a s1 IH]; simpl; [done |].
  by rewrite IH, append_assoc.
Qed.

Lemma split_str_nonempty c s : Py.split_str c s ≠ [].
Proof.
  destruct s as [|a s]; simpl; [done |].
  destruct (Ascii.eqb a c); [done |].
  by destruct (Py.split_str c s).
Qed.

(** A text without the separator is its own single field. *)
Lemma split_str_none c s :
  Py.contains_char c s = false → Py.split_str c s = [s].
Proof.
  induction s as [|a s IH]; simpl; [done |].
  intros [Ha Hs]%orb_false_iff. rewrite Ha. by rewrite (IH Hs).
Qed.

(** [(a + sep + b).split(sep) == a.split(sep) + b.split(sep)] *)
Lemma split_str_app c s1 s2 :
  Py.split_str c (s1 +:+ String c s2) = Py.split_str c s1 ++ Py.split_str c s2.
Proof.
  induction s1 as [|a s1 IH]; simpl.
  - by rewrite Ascii.eqb_refl.
  - destruct (Ascii.eqb a c); [by rewrite IH |].
    rewrite IH. pose proof (split_str_nonempty c s1).
    by destruct (Py.split_str c s1).
Qed.

(** The first field has no separator, and the text is that field alone
    or that field, a separator and the rest. *)
Lemma split_str_first c s :
  ∃ h t, Py.split_str c s = h :: t ∧ Py.contains_char c h = false ∧
         (s = h ∨ ∃ rest, s = h +:+ String c rest).
Proof.
  induction s as [|a s (h & t & Hs & Hh & Hcase)]; simpl.
  - exists "", []. auto.
  - destruct (Ascii.eqb a c) eqn:Hac.
    + apply Ascii.eqb_eq in Hac as ->. exists "", (Py.split_str c s).
      split_and!; [done | done |]. right. by exists s.
    + rewrite Hs. exists (String a h), t. split_and!; [done | |].
      * simpl. by rewrite Hac, Hh.
      * destruct Hcase as [-> | [rest ->]]; [by left |].
        right. by exists rest.
Qed.

(** The last field has no separator, and the text is that field alone
    or a prefix, a separator and that field. *)
Lemma split_str_last c s :
  ∃ seg, last (Py.split_str c s) = Some seg ∧ Py.contains_char c seg = false ∧
         (s = seg ∨ ∃ pre, s = pre +:+ String c seg).
Proof.
  induction s as [|a s (seg & Hlast & Hseg & Hcase)]; simpl.
  - exists "". auto.
  - destruct (Ascii.eqb a c) eqn:Hac.
    + apply Ascii.eqb_eq in Hac as ->. exists seg.
      pose proof (split_str_nonempty c s).
      split_and!; [| done |].
      * destruct (Py.split_str c s); [done | by rewrite last_cons, Hlast].
      * right. destruct Hcase as [-> | [pre ->]]; [by exists "" |].
        by exists (String c pre).
    + destruct (Py.split_str c s) as [|h t] eqn:Hs; [done |].
      destruct t as [|h' t].
      * simpl in Hlast. injection Hlast as ->.
        destruct Hcase as [-> | [pre ->]].
        -- exists (String a seg). simpl. rewrite Hac, Hseg. auto.
        -- rewrite split_str_app in Hs.
           pose proof (split_str_nonempty c pre).
           pose proof (split_str_nonempty c seg).
           destruct (Py.split_str c pre), (Py.split_str c seg); try done.
           by destruct l.
      * exists seg. split_and!; [exact Hlast | done |].
        right. destruct Hcase as [-> | [pre ->]].
        -- rewrite (split_str_none _ _ Hseg) in Hs. done.
        -- by exists (String a pre).
Qed.

Lemma index_first {A} (x : A) l : Py.index (x :: l) 0 = Ok x.
Proof. reflexivity. Qed.

Lemma index_final {A} (l : list A) x :
  last l = Some x → Py.index l (Z.of_nat (length l) - 1) = Ok x.
Proof.
  intros Hlast. unfold Py.index.
  destruct l as [|y l]; [done |].
  rewrite last_lookup in Hlast. simpl length in *.
  replace (Z.of_nat (S (length l)) - 1) with (Z.of_nat (length l)) by lia.
  assert ((Z.of_nat (length l) <? 0) = false) as Hlt by (apply Z.ltb_ge; lia).
  rewrite !Hlt, Nat2Z.id. simpl in Hlast. by rewrite Hlast.
Qed.

End StringFacts.

(** ** Configuration fetch *)

Section GetConfig.

Context (environ : gmap string string) (boto3 : sdk).

Lemma after_last_section_name name seg :
  after_last "/" name seg ↔ section_name_of name = seg.
Proof.
  unfold after_last, section_name_of. split.
  - intros [Hseg [-> | [pre ->]]].
    + by rewrite (split_str_none _ _ Hseg).
    + rewrite split_str_app, (split_str_none _ _ Hseg).
      by rewrite last_snoc.
  - intros <-.
    destruct (split_str_last "/" name) as (seg & -> & Hseg & Hcase). done.
Qed.

Lemma load_param_entry param entry configuration :
  store_entry param = Some entry →
  load_param param configuration = Ok (store configuration entry).
Proof.
  destruct param as [| | | |?|d|]; try done. simpl.
  destruct (Py.dict_get "Name" d) as [[| | |name| | |]|] eqn:Hname; try done.
  intros [= <-]. unfold load_param. simpl. rewrite Hname. simpl.
  destruct (split_str_last "/" name) as (seg & Hlast & _).
  rewrite (index_final _ _ Hlast). simpl.
  unfold store, section_name_of. simpl. rewrite Hlast. simpl.
  by destruct (Py.dict_get "Value" d).
Qed.

Lemma load_params_entries params entries configuration :
  mapM store_entry params = Some entries →
  load_params params configuration = (foldl store configuration entries, None).
Proof.
  intros Hentries%mapM_Some. revert configuration.
  induction Hentries as [|param entry params entries Hparam _ IH];
    intros configuration; simpl; [done |].
  rewrite (load_param_entry _ _ _ Hparam). apply IH.
Qed.

Lemma get_config_entries path resp params entries :
  fetch environ boto3 path = Ok resp →
  Py.get resp "Parameters" (VList []) = Ok (VList params) →
  mapM store_entry params = Some entries →
  get_config environ boto3 path = foldl store ∅ entries.
Proof.
  unfold fetch, get_config. intros Hfetch Hget Hentries.
  destruct (client_ssm boto3 (region_name environ)) as [ssm|]; [|done].
  simpl in *. rewrite Hfetch. simpl. rewrite Hget. simpl.
  by rewrite (load_params_entries _ _ _ Hentries).
Qed.

Lemma foldl_store_lookup entries configuration k v :
  foldl store configuration entries !! k = Some v →
  configuration !! k = Some v ∨
  ∃ name, (name, v) ∈ entries ∧ section_name_of name = k.
Proof.
  revert configuration.
  induction entries as [|[name v'] entries IH]; intros configuration; simpl.
  - auto.
  - intros [Hk | (name' & Hin & Hseg)]%IH.
    + unfold store in Hk. simpl in Hk.
      destruct (decide (section_name_of name = k)) as [<-|Hne].
      * rewrite lookup_insert_eq in Hk. injection Hk as ->.
        right. exists name. split; [left | done].
      * rewrite lookup_insert_ne in Hk by done. auto.
    + right. exists name'. split; [by right | done].
Qed.

Lemma foldl_store_is_Some entries configuration k :
  is_Some (configuration !! k) ∨
    (∃ name v, (name, v) ∈ entries ∧ section_name_of name = k) →
  is_Some (foldl store configuration entries !! k).
Proof.
  revert configuration.
  induction entries as [|[name v'] entries IH]; intros configuration; simpl.
  - intros [H | (? & ? & []%elem_of_nil & _)]. done.
  - intros [H | (name' & v & Hin & Hseg)]; apply IH.
    + left. unfold store. simpl.
      destruct (decide (section_name_of name = k)) as [<-|Hne].
      * by rewrite lookup_insert_eq.
      * by rewrite lookup_insert_ne.
    + apply elem_of_cons in Hin as [[= -> ->] | Hin].
      * left. unfold store. simpl. subst k. by rewrite lookup_insert_eq.
      * right. eauto.
Qed.

End GetConfig.

Example get_config_fixture :
  get_config Fixtures.environ Fixtures.boto3 (full_config_path Fixtures.environ)
  = {[ "ECS_CLUSTER" := VStr "default"; "ECS_SUBNET" := VStr "subnet" ]}.
Proof. vm_compute. reflexivity. Qed.

(** An entry without a name stops the loop: the exception is swallowed and
    the entries stored before it are returned. *)
Example get_config_partial_fixture :
  get_config Fixtures.environ
    (Sdk (fun _ => Ok (SsmClient (fun path _ _ =>
            Ok (VDict [("Parameters",
                        VList [Fixtures.parameter (path +:+ "/foo") "bar";
                               VDict [("Value", VStr "lost")];
                               Fixtures.parameter (path +:+ "/baz") "buzz"])]))))
         (fun _ => Ok Fixtures.ecs_echo))
    "/dev/digital_ingest_trigger"
  = {[ "foo" := VStr "bar" ]}.
Proof. vm_compute. reflexivity. Qed.

(** ** Properties of [get_config] *)

(** C3. Whatever the path, when the fetch from the remote store raises,
    at the creation of the client or at the query, [get_config] raises
    nothing and returns the empty mapping. *)
Theorem get_config_store_failure_empty
    (environ : gmap string string) (boto3 : sdk) (path : string) :
  raises (fetch environ boto3 path) = true →
  get_config environ boto3 path = ∅.
Proof.
  unfold fetch, get_config.
  destruct (client_ssm boto3 (region_name environ)) as [ssm|e]; simpl; [|done].
  by destruct (get_parameters_by_path ssm path false true).
Qed.

Lemma get_config_store_failure_empty_witness :
  get_config Fixtures.environ Fixtures.boto3_down "/dev/digital_ingest_trigger" = ∅.
Proof.
  apply (get_config_store_failure_empty
           Fixtures.environ Fixtures.boto3_down "/dev/digital_ingest_trigger").
  reflexivity.
Defined.

(** C8. After a successful fetch every key of the configuration is the
    text after the last [/] of the name of a store entry and is bound to
    that entry's value, and every entry's final segment is a key; a store
    that holds [path/foo = bar] and [path/baz = buzz] gives exactly
    [{foo: bar, baz: buzz}]. *)
Theorem get_config_final_segments
    (environ : gmap string string) (boto3 : sdk) (path : string)
    (resp : value) (params : list value) (entries : list (string * value)) :
  fetch environ boto3 path = Ok resp →
  Py.get resp "Parameters" (VList []) = Ok (VList params) →
  mapM store_entry params = Some entries →
  (∀ k v, get_config environ boto3 path !! k = Some v →
          ∃ name, (name, v) ∈ entries ∧ after_last "/" name k) ∧
  (∀ name v k, (name, v) ∈ entries → after_last "/" name k →
               is_Some (get_config environ boto3 path !! k)) ∧
  (entries = [(path +:+ "/foo", VStr "bar"); (path +:+ "/baz", VStr "buzz")] →
   get_config environ boto3 path = {[ "foo" := VStr "bar"; "baz" := VStr "buzz" ]}).
Proof.
  intros Hfetch Hget Hentries.
  rewrite (get_config_entries _ _ _ _ _ _ Hfetch Hget Hentries).
  split_and!.
  - intros k v [Hk | (name & Hin & Hseg)]%foldl_store_lookup; [done |].
    exists name. by rewrite after_last_section_name.
  - intros name v k Hin Hseg%after_last_section_name.
    apply foldl_store_is_Some. right. eauto.
  - intros ->. simpl. unfold store. simpl.
    assert (∀ seg, Py.contains_char "/" seg = false →
                   section_name_of (path +:+ String "/" seg) = seg) as Hseg.
    { intros seg Hno. apply after_last_section_name. split; [done |].
      right. by exists path. }
    rewrite (Hseg "foo"), (Hseg "baz") by done.
    apply map_eq. intros k.
    destruct (decide (k = "baz")) as [->|?]; [by simplify_map_eq |].
    destruct (decide (k = "foo")) as [->|?]; by simplify_map_eq.
Qed.

Lemma get_config_final_segments_witness :
  get_config Fixtures.environ Fixtures.boto3_foo_baz "/dev/digital_ingest_trigger"
  = {[ "foo" := VStr "bar"; "baz" := VStr "buzz" ]}.
Proof.
  refine (proj2 (proj2 (get_config_final_segments
            Fixtures.environ Fixtures.boto3_foo_baz "/dev/digital_ingest_trigger"
            _ _ _ eq_refl eq_refl eq_refl)) eq_refl).
Defined.

(** ** Properties of [run_task] *)

(** C7. For every configuration, task definition and environment,
    [run_task] makes one call, whose request has the configured
    [ECS_CLUSTER] as cluster, the configured [ECS_SUBNET] as only subnet, no
    security group, no public address, launch type [FARGATE], count 1,
    [startedBy] the text [lambda/digital_ingest_trigger], and one container
    override named as the task definition and carrying the environment. *)
Theorem run_task_request
    (ecs : ecs_client) (config : gmap string value)
    (task_definition environment : value) :
  ∃ request,
    launches (run_task ecs config task_definition environment) = [request] ∧
    outcome (run_task ecs config task_definition environment)
      = ecs_run_task ecs request ∧
    cluster request = default VNone (config !! "ECS_CLUSTER") ∧
    vpc_field request "subnets" = Ok (VList [default VNone (config !! "ECS_SUBNET")]) ∧
    vpc_field request "securityGroups" = Ok (VList []) ∧
    vpc_field request "assignPublicIp" = Ok (VStr "DISABLED") ∧
    launchType request = VStr "FARGATE" ∧
    count request = VInt 1 ∧
    startedBy request = VStr "lambda/digital_ingest_trigger" ∧
    taskDefinition request = task_definition ∧
    container_overrides request = Ok (single_override task_definition environment).
Proof.
  eexists. split; [reflexivity |]. by split_and!.
Qed.

(** ** Properties of [lambda_handler] *)

#[local] Arguments Py.str : simpl never.
#[local] Arguments Py.json_dumps : simpl never.
#[local] Arguments get_config : simpl never.
#[local] Arguments run_task : simpl never.

(** *** Laws of the trace *)

Lemma act_bind_ok {A B} (f : A → act B) (a : A) :
  act_bind A B f (Act [] (Ok a)) = f a.
Proof. unfold act_bind. simpl. by destruct (f a). Qed.

Lemma act_bind_raise {A B} (f : A → act B) (l : list run_task_kwargs) (e : exn) :
  act_bind A B f (Act l (Raise e)) = Act l (Raise e).
Proof. reflexivity. Qed.

Ltac act_simpl :=
  repeat (progress (unfold mbind, mret, act_ret, lift, raise; simpl)
          || rewrite act_bind_ok || rewrite act_bind_raise).

(** *** Routing *)

Section Routing.

Context (environ : gmap string string) (boto3 : sdk) (ecs : ecs_client).
Hypothesis ecs_available : client_ecs boto3 (region_name environ) = Ok ecs.

Let config := get_config environ boto3 (full_config_path environ).

Lemma storage_event_inv event :
  is_storage_event event = true →
  ∃ d s3, first_record event = Ok (VDict d) ∧
          Py.dict_get "s3" d = Some s3 ∧ Py.truthy s3 = true.
Proof.
  unfold is_storage_event.
  destruct (first_record event) as [[| | | | |d|]|]; try done. simpl.
  destruct (Py.dict_get "s3" d) as [s3|] eqn:Hget; simpl; [|done].
  intros Hs3. by exists d, s3.
Qed.

Lemma topic_event_inv event :
  is_topic_event event = true →
  ∃ d sns, first_record event = Ok (VDict d) ∧
           Py.truthy (default VNone (Py.dict_get "s3" d)) = false ∧
           Py.dict_get "Sns" d = Some sns ∧ Py.truthy sns = true.
Proof.
  unfold is_topic_event, is_storage_event.
  destruct (first_record event) as [[| | | | |d|]|]; try done. simpl.
  intros [Hs3%negb_true_iff Hsns]%andb_true_iff.
  destruct (Py.dict_get "Sns" d) as [sns|] eqn:Hget; simpl in *; [|done].
  by exists d, sns.
Qed.

Lemma route_storage event d :
  first_record event = Ok (VDict d) →
  Py.truthy (default VNone (Py.dict_get "s3" d)) = true →
  lambda_handler environ boto3 event = respond (handle_s3 ecs config event).
Proof.
  intros Hr Hs3. unfold lambda_handler, respond.
  rewrite ecs_available, Hr. act_simpl. by rewrite Hs3.
Qed.

Lemma route_topic event d :
  first_record event = Ok (VDict d) →
  Py.truthy (default VNone (Py.dict_get "s3" d)) = false →
  Py.truthy (default VNone (Py.dict_get "Sns" d)) = true →
  lambda_handler environ boto3 event = respond (handle_sns ecs config event).
Proof.
  intros Hr Hs3 Hsns. unfold lambda_handler, respond.
  rewrite ecs_available, Hr. act_simpl. rewrite Hs3. act_simpl.
  by rewrite Hsns.
Qed.

Lemma route_neither event d :
  first_record event = Ok (VDict d) →
  Py.truthy (default VNone (Py.dict_get "s3" d)) = false →
  Py.truthy (default VNone (Py.dict_get "Sns" d)) = false →
  lambda_handler environ boto3 event
  = raise (GenericException "Unsure how to parse message").
Proof.
  intros Hr Hs3 Hsns. unfold lambda_handler.
  rewrite ecs_available, Hr. act_simpl. rewrite Hs3. act_simpl.
  rewrite Hsns. by act_simpl.
Qed.

(** The storage branch on a creation event. *)
Lemma handle_s3_created event name key :
  event_name event = Ok (VStr name) →
  name = "ObjectCreated:Put" ∨ name = "ObjectCreated:CompleteMultipartUpload" →
  object_key event = Ok (VStr key) →
  ∃ package_id,
    before_first "." key package_id ∧
    handle_s3 ecs config event
    = run_task ecs config (VStr "ursa_major")
               (package_environment (VStr package_id)).
Proof.
  unfold event_name, object_key, handle_s3. intros Hname Htrigger Hkey.
  destruct (first_record event) as [r|]; [|done]. simpl in *.
  destruct (split_str_first "." key) as (h & t & Hsplit & Hh & Hcase).
  exists h. split; [done |].
  destruct (Py.getitem r "s3") as [s3|]; [|done]. simpl in *.
  destruct (Py.getitem s3 "object") as [object|]; [|done]. simpl in *.
  rewrite Hname, Hkey.
  destruct Htrigger as [-> | ->]; act_simpl; rewrite Hsplit, index_first;
    by act_simpl.
Qed.

(** The storage branch on any other event. *)
Lemma handle_s3_other event name :
  event_name event = Ok name →
  name ≠ VStr "ObjectCreated:Put" →
  name ≠ VStr "ObjectCreated:CompleteMultipartUpload" →
  handle_s3 ecs config event
  = mret (VStr ("Nothing to do for S3 event: " +:+ Py.str event)).
Proof.
  unfold event_name, handle_s3. intros Hname Hput Hmulti.
  rewrite Hname. act_simpl.
  destruct name as [| | |s| | |]; simpl; try done.
  destruct (String.eqb_spec s "ObjectCreated:Put") as [->|_]; [done |].
  destruct (String.eqb_spec s "ObjectCreated:CompleteMultipartUpload") as [->|_];
    done.
Qed.

Lemma well_formed_lookup attributes name v :
  well_formed_attributes attributes = true →
  Py.dict_get name attributes = Some v →
  ∃ a, v = VDict a.
Proof.
  induction attributes as [|[k x] attributes IH]; simpl; [done |].
  intros [Hx Hrest]%andb_true_iff.
  destruct (String.eqb name k); [|by apply IH].
  intros [= <-]. destruct x; try done. eauto.
Qed.

(** [attributes.get(name, {}).get('Value')] on well-formed attributes. *)
Lemma attribute_get attributes name :
  well_formed_attributes attributes = true →
  (a ← Py.get (VDict attributes) name (VDict []); Py.get a "Value" VNone)
  = Ok (default VNone (attribute_value attributes name)).
Proof.
  intros Hwf. unfold attribute_value. simpl.
  destruct (Py.dict_get name attributes) as [v|] eqn:Hget; simpl; [|done].
  by destruct (well_formed_lookup _ _ _ Hwf Hget) as [a ->].
Qed.

(** The topic branch on a start request. *)
Lemma handle_sns_start event attributes service :
  message_attributes event = Ok (VDict attributes) →
  well_formed_attributes attributes = true →
  attribute_value attributes "requested_status" = Some (VStr "START") →
  attribute_value attributes "service" = Some service →
  handle_sns ecs config event
  = run_task ecs config service
      (package_environment (default VNone (attribute_value attributes "package_id"))).
Proof.
  unfold message_attributes, handle_sns. intros -> Hwf Hstatus Hservice.
  unfold lift. rewrite act_bind_ok.
  rewrite !(attribute_get _ _ Hwf), !act_bind_ok, Hstatus.
  unfold attribute_value in Hservice. simpl.
  destruct (Py.dict_get "service" attributes) as [[| | | | |a|]|]; try done.
  simpl. rewrite Hservice. by rewrite act_bind_ok.
Qed.

(** The topic branch on any other request. *)
Lemma handle_sns_other event attributes :
  message_attributes event = Ok (VDict attributes) →
  well_formed_attributes attributes = true →
  attribute_value attributes "requested_status" ≠ Some (VStr "START") →
  handle_sns ecs config event
  = mret (VStr ("Nothing to do for SNS event: " +:+ Py.str event)).
Proof.
  unfold message_attributes, handle_sns. intros -> Hwf Hstatus.
  unfold lift. rewrite act_bind_ok.
  rewrite !(attribute_get _ _ Hwf), !act_bind_ok.
  destruct (attribute_value attributes "requested_status")
    as [[| | |s| | |]|]; simpl; try done.
  destruct (String.eqb_spec s START_STATUS) as [->|_]; done.
Qed.

Lemma launches_respond branch : launches (respond branch) = launches branch.
Proof.
  unfold respond, mbind, act_bind.
  destruct (outcome branch); simpl; [by rewrite app_nil_r | done].
Qed.

Lemma outcome_respond branch :
  outcome (respond branch)
  = match outcome branch with
    | Ok response => Ok (Py.json_dumps response)
    | Raise e => Raise e
    end.
Proof. unfold respond, mbind, act_bind. by destruct (outcome branch). Qed.

End Routing.

(** A response that starts with a phrase free of characters JSON escapes
    still shows the phrase once serialised. *)
Lemma json_dumps_contains (phrase rest : string) :
  Py.concat_map Py.json_char phrase = phrase →
  contains phrase (Py.json_dumps (VStr (phrase +:+ rest))).
Proof.
  intros Hplain. exists (String Py.dquote ""),
    (Py.concat_map Py.json_char rest +:+ String Py.dquote "").
  unfold Py.json_dumps, Py.json_str.
  by rewrite concat_map_app, Hplain, append_assoc.
Qed.

Example handler_s3_put_fixture :
  ∃ request,
    launches (lambda_handler Fixtures.environ Fixtures.boto3 Fixtures.s3_put)
      = [request] ∧
    cluster request = VStr "default" ∧
    container_overrides request
      = Ok (single_override (VStr "ursa_major") (package_id_only (VStr "abc123"))).
Proof. eexists. split; [vm_compute; reflexivity |]. by split. Qed.

(** C1. When the first record of the envelope is a storage event whose
    name is [ObjectCreated:Put] or [ObjectCreated:CompleteMultipartUpload],
    the handler makes exactly one launch, of the task definition
    [ursa_major], and the environment of the launch is the single entry
    [PACKAGE_ID] whose value is the object key up to its first [.]. *)
Theorem storage_created_launches_ursa_major
    (environ : gmap string string) (boto3 : sdk) (ecs : ecs_client)
    (event : value) (name key : string) :
  client_ecs boto3 (region_name environ) = Ok ecs →
  is_storage_event event = true →
  event_name event = Ok (VStr name) →
  name = "ObjectCreated:Put" ∨ name = "ObjectCreated:CompleteMultipartUpload" →
  object_key event = Ok (VStr key) →
  ∃ package_id request,
    before_first "." key package_id ∧
    launches (lambda_handler environ boto3 event) = [request] ∧
    taskDefinition request = VStr "ursa_major" ∧
    container_overrides request
      = Ok (single_override (VStr "ursa_major") (package_id_only (VStr package_id))).
Proof.
  intros Hecs (d & s3 & Hr & Hget & Hs3)%storage_event_inv Hname Htrigger Hkey.
  destruct (handle_s3_created environ boto3 ecs event name key Hname Htrigger Hkey)
    as (package_id & Hprefix & Hbranch).
  exists package_id. eexists. split; [exact Hprefix |].
  rewrite (route_storage environ boto3 ecs Hecs event d Hr) by by rewrite Hget.
  rewrite launches_respond, Hbranch. by split_and!.
Qed.

Lemma storage_created_launches_ursa_major_witness :
  ∃ package_id request,
    before_first "." "abc123.tar.gz" package_id ∧
    launches (lambda_handler Fixtures.environ Fixtures.boto3 Fixtures.s3_put)
      = [request] ∧
    taskDefinition request = VStr "ursa_major" ∧
    container_overrides request
      = Ok (single_override (VStr "ursa_major") (package_id_only (VStr package_id))).
Proof.
  apply (storage_created_launches_ursa_major
           Fixtures.environ Fixtures.boto3 Fixtures.ecs_echo Fixtures.s3_put
           "ObjectCreated:Put" "abc123.tar.gz");
    [reflexivity | reflexivity | reflexivity | left; reflexivity | reflexivity].
Defined.

(** C5. When the first record is a storage event with any other name, the
    handler launches nothing and the result it returns contains the phrase
    [Nothing to do for S3 event]. *)
Theorem storage_other_nothing_to_do
    (environ : gmap string string) (boto3 : sdk) (ecs : ecs_client)
    (event name : value) :
  client_ecs boto3 (region_name environ) = Ok ecs →
  is_storage_event event = true →
  event_name event = Ok name →
  name ≠ VStr "ObjectCreated:Put" →
  name ≠ VStr "ObjectCreated:CompleteMultipartUpload" →
  launches (lambda_handler environ boto3 event) = [] ∧
  ∃ text, outcome (lambda_handler environ boto3 event) = Ok text ∧
          contains "Nothing to do for S3 event" text.
Proof.
  intros Hecs (d & s3 & Hr & Hget & Hs3)%storage_event_inv Hname Hput Hmulti.
  rewrite (route_storage environ boto3 ecs Hecs event d Hr) by by rewrite Hget.
  rewrite launches_respond, outcome_respond.
  rewrite (handle_s3_other environ boto3 ecs event name Hname Hput Hmulti).
  split; [done |]. eexists. split; [reflexivity |].
  by apply (json_dumps_contains "Nothing to do for S3 event" (": " +:+ Py.str event)).
Qed.

Lemma storage_other_nothing_to_do_witness :
  launches (lambda_handler Fixtures.environ Fixtures.boto3 Fixtures.s3_delete) = [] ∧
  ∃ text,
    outcome (lambda_handler Fixtures.environ Fixtures.boto3 Fixtures.s3_delete)
      = Ok text ∧
    contains "Nothing to do for S3 event" text.
Proof.
  apply (storage_other_nothing_to_do
           Fixtures.environ Fixtures.boto3 Fixtures.ecs_echo Fixtures.s3_delete
           (VStr "ObjectRemoved:Delete"));
    [reflexivity | reflexivity | reflexivity | discriminate | discriminate].
Defined.

(** C2. When the first record is a topic event whose [requested_status]
    attribute is [START], the handler makes exactly one launch, of the task
    definition given by the [service] attribute, and the [PACKAGE_ID] of the
    launch environment is the [package_id] attribute, or null when the
    attribute is absent. *)
Theorem topic_start_launches_service
    (environ : gmap string string) (boto3 : sdk) (ecs : ecs_client)
    (event : value) (attributes : list (string * value)) (service : value) :
  client_ecs boto3 (region_name environ) = Ok ecs →
  is_topic_event event = true →
  message_attributes event = Ok (VDict attributes) →
  well_formed_attributes attributes = true →
  attribute_value attributes "requested_status" = Some (VStr "START") →
  attribute_value attributes "service" = Some service →
  ∃ package_id request,
    launches (lambda_handler environ boto3 event) = [request] ∧
    taskDefinition request = service ∧
    container_overrides request
      = Ok (single_override service (package_id_only package_id)) ∧
    package_id = default VNone (attribute_value attributes "package_id") ∧
    (Py.dict_get "package_id" attributes = None → package_id = VNone).
Proof.
  intros Hecs (d & sns & Hr & Hs3 & Hget & Hsns)%topic_event_inv
    Hattributes Hwf Hstatus Hservice.
  exists (default VNone (attribute_value attributes "package_id")). eexists.
  rewrite (route_topic environ boto3 ecs Hecs event d Hr Hs3) by by rewrite Hget.
  rewrite launches_respond.
  rewrite (handle_sns_start environ boto3 ecs event attributes service
             Hattributes Hwf Hstatus Hservice).
  split_and!; try done.
  unfold attribute_value. by intros ->.
Qed.

Lemma topic_start_launches_service_witness :
  ∃ package_id request,
    launches (lambda_handler Fixtures.environ Fixtures.boto3 Fixtures.sns_start)
      = [request] ∧
    taskDefinition request = VStr "fornax" ∧
    container_overrides request
      = Ok (single_override (VStr "fornax") (package_id_only package_id)) ∧
    package_id = default VNone (attribute_value Fixtures.start_attributes "package_id") ∧
    (Py.dict_get "package_id" Fixtures.start_attributes = None → package_id = VNone).
Proof.
  apply (topic_start_launches_service
           Fixtures.environ Fixtures.boto3 Fixtures.ecs_echo Fixtures.sns_start
           Fixtures.start_attributes (VStr "fornax")); reflexivity.
Defined.

(** C6. When the first record is a topic event whose [requested_status]
    attribute is absent or is not [START], the handler launches nothing and
    the result it returns contains the phrase [Nothing to do for SNS event]. *)
Theorem topic_other_nothing_to_do
    (environ : gmap string string) (boto3 : sdk) (ecs : ecs_client)
    (event : value) (attributes : list (string * value)) :
  client_ecs boto3 (region_name environ) = Ok ecs →
  is_topic_event event = true →
  message_attributes event = Ok (VDict attributes) →
  well_formed_attributes attributes = true →
  attribute_value attributes "requested_status" ≠ Some (VStr "START") →
  launches (lambda_handler environ boto3 event) = [] ∧
  ∃ text, outcome (lambda_handler environ boto3 event) = Ok text ∧
          contains "Nothing to do for SNS event" text.
Proof.
  intros Hecs (d & sns & Hr & Hs3 & Hget & Hsns)%topic_event_inv
    Hattributes Hwf Hstatus.
  rewrite (route_topic environ boto3 ecs Hecs event d Hr Hs3) by by rewrite Hget.
  rewrite launches_respond, outcome_respond.
  rewrite (handle_sns_other environ boto3 ecs event attributes Hattributes Hwf Hstatus).
  split; [done |]. eexists. split; [reflexivity |].
  by apply (json_dumps_contains "Nothing to do for SNS event" (": " +:+ Py.str event)).
Qed.

Lemma topic_other_nothing_to_do_witness :
  launches (lambda_handler Fixtures.environ Fixtures.boto3 Fixtures.sns_idle) = [] ∧
  ∃ text,
    outcome (lambda_handler Fixtures.environ Fixtures.boto3 Fixtures.sns_idle)
      = Ok text ∧
    contains "Nothing to do for SNS event" text.
Proof.
  apply (topic_other_nothing_to_do
           Fixtures.environ Fixtures.boto3 Fixtures.ecs_echo Fixtures.sns_idle
           Fixtures.idle_attributes);
    [reflexivity | reflexivity | reflexivity | reflexivity | discriminate].
Defined.

(** An envelope without a first record, or whose first record is not an
    object, fails before any branch is taken. *)
Lemma malformed_envelope_raises
    (environ : gmap string string) (boto3 : sdk) (ecs : ecs_client) (event : value) :
  client_ecs boto3 (region_name environ) = Ok ecs →
  (∀ d, first_record event ≠ Ok (VDict d)) →
  launches (lambda_handler environ boto3 event) = [] ∧
  raises (outcome (lambda_handler environ boto3 event)) = true.
Proof.
  intros Hecs Hr. unfold lambda_handler. rewrite Hecs. act_simpl.
  destruct (first_record event) as [[| | | | |d|]|]; act_simpl; try done.
  by destruct (Hr d).
Qed.

(** C4, as the claim states it, fails: the empty event has neither shape,
    and the handler raises the [KeyError] of reading [Records], not the
    exception for an unrecognised event. *)
Lemma neither_shape_without_records :
  is_storage_event (VDict []) = false ∧
  is_topic_event (VDict []) = false ∧
  outcome (lambda_handler Fixtures.environ Fixtures.boto3 (VDict []))
    = Raise (KeyError (VStr "Records")) ∧
  outcome (lambda_handler Fixtures.environ Fixtures.boto3 (VDict []))
    ≠ Raise (GenericException "Unsure how to parse message").
Proof. split_and!; [reflexivity | reflexivity | reflexivity | discriminate]. Qed.

(** C4, amended. Every envelope that has neither shape makes the handler
    raise, launch nothing and return nothing.  When its first record is an
    object, with no truthy [s3] and no truthy [Sns], the exception is the
    one for an unrecognised event; when the first record cannot be read the
    exception is that of the failed lookup, and when the first record is no
    object it is the [AttributeError] of its missing [get]. *)
Theorem unrecognized_event_raises
    (environ : gmap string string) (boto3 : sdk) (ecs : ecs_client)
    (event : value) :
  client_ecs boto3 (region_name environ) = Ok ecs →
  is_storage_event event = false →
  is_topic_event event = false →
  launches (lambda_handler environ boto3 event) = [] ∧
  raises (outcome (lambda_handler environ boto3 event)) = true ∧
  (∀ d, first_record event = Ok (VDict d) →
        outcome (lambda_handler environ boto3 event)
          = Raise (GenericException "Unsure how to parse message")) ∧
  (∀ e, first_record event = Raise e →
        outcome (lambda_handler environ boto3 event) = Raise e) ∧
  (∀ r, first_record event = Ok r → (∀ d, r ≠ VDict d) →
        outcome (lambda_handler environ boto3 event)
          = Raise (AttributeError "get")).
Proof.
  intros Hecs Hstorage Htopic.
  assert (∀ d, first_record event = Ok (VDict d) →
               lambda_handler environ boto3 event
               = raise (GenericException "Unsure how to parse message"))
    as Hobject.
  { intros d Hr. unfold is_topic_event, is_storage_event in *.
    rewrite Hr in *. simpl in *. rewrite Hstorage in Htopic. simpl in Htopic.
    by apply (route_neither environ boto3 ecs Hecs event d Hr). }
  assert (∀ e, first_record event = Raise e →
               lambda_handler environ boto3 event = raise e) as Hlookup.
  { intros e Hr. unfold lambda_handler. rewrite Hecs, Hr. by act_simpl. }
  assert (∀ r, first_record event = Ok r → (∀ d, r ≠ VDict d) →
               lambda_handler environ boto3 event = raise (AttributeError "get"))
    as Hother.
  { intros r Hr Hd. unfold lambda_handler. rewrite Hecs, Hr. act_simpl.
    destruct r as [| | | | |d|]; act_simpl; try done. by destruct (Hd d). }
  split_and!.
  - destruct (first_record event) as [r|e] eqn:Hr; [|by rewrite (Hlookup e)].
    destruct r as [| | | | |d|];
      first [by rewrite (Hobject d) | by rewrite (Hother _ eq_refl)].
  - destruct (first_record event) as [r|e] eqn:Hr; [|by rewrite (Hlookup e)].
    destruct r as [| | | | |d|];
      first [by rewrite (Hobject d) | by rewrite (Hother _ eq_refl)].
  - intros d Hr. by rewrite (Hobject d Hr).
  - intros e Hr. by rewrite (Hlookup e Hr).
  - intros r Hr Hd. by rewrite (Hother r Hr Hd).
Qed.

Lemma unrecognized_event_raises_witness :
  launches (lambda_handler Fixtures.environ Fixtures.boto3 Fixtures.unknown) = [] ∧
  outcome (lambda_handler Fixtures.environ Fixtures.boto3 Fixtures.unknown)
    = Raise (GenericException "Unsure how to parse message").
Proof.
  pose proof (unrecognized_event_raises
                Fixtures.environ Fixtures.boto3 Fixtures.ecs_echo Fixtures.unknown
                eq_refl eq_refl eq_refl) as (Hnone & _ & Hobject & _).
  split; [exact Hnone |].
  exact (Hobject Fixtures.unknown_record eq_refl).
Defined.

(** *** What the handler reads of the envelope *)

Section FirstRecord.

Context (environ : gmap string string) (boto3 : sdk).

Lemma handle_s3_first_record ecs config e1 e2 :
  first_record e1 = first_record e2 →
  handle_s3 ecs config e1 = handle_s3 ecs config e2 ∨
  handle_s3 ecs config e1 = nothing_to_do "S3" e1 ∧
  handle_s3 ecs config e2 = nothing_to_do "S3" e2.
Proof.
  unfold handle_s3. intros ->.
  destruct (r ← first_record e2; Py.getitem r "eventName") as [event_type|];
    [|by left].
  unfold lift. rewrite !act_bind_ok.
  destruct (Py.in_strs event_type _); [by left | by right].
Qed.

Lemma handle_sns_first_record ecs config e1 e2 :
  first_record e1 = first_record e2 →
  handle_sns ecs config e1 = handle_sns ecs config e2 ∨
  handle_sns ecs config e1 = nothing_to_do "SNS" e1 ∧
  handle_sns ecs config e2 = nothing_to_do "SNS" e2.
Proof.
  unfold handle_sns. intros ->.
  destruct (r ← first_record e2; sns ← Py.getitem r "Sns";
            Py.getitem sns "MessageAttributes") as [attributes|]; [|by left].
  unfold lift. rewrite !act_bind_ok.
  destruct (a ← Py.get attributes "package_id" (VDict []); Py.get a "Value" VNone)
    as [package_id|]; [|by left].
  rewrite !act_bind_ok.
  destruct (a ← Py.get attributes "requested_status" (VDict []);
            Py.get a "Value" VNone) as [status|]; [|by left].
  rewrite !act_bind_ok.
  destruct (Py.eq_str status START_STATUS); [by left | by right].
Qed.

(** The handler depends on the envelope through its first record, and
    through the text of the envelope in the two answers above. *)
Lemma lambda_handler_first_record e1 e2 :
  first_record e1 = first_record e2 →
  lambda_handler environ boto3 e1 = lambda_handler environ boto3 e2 ∨
  ∃ source, (source = "S3" ∨ source = "SNS") ∧
    lambda_handler environ boto3 e1 = respond (nothing_to_do source e1) ∧
    lambda_handler environ boto3 e2 = respond (nothing_to_do source e2).
Proof.
  intros Hsame. unfold lambda_handler. rewrite Hsame.
  destruct (client_ecs boto3 (region_name environ)) as [ecs|]; [|by left].
  unfold lift. rewrite !act_bind_ok.
  destruct (r ← first_record e2; Py.get r "s3" VNone) as [s3|]; [|by left].
  rewrite !act_bind_ok.
  destruct (Py.truthy s3).
  - destruct (handle_s3_first_record ecs
                (get_config environ boto3 (full_config_path environ)) e1 e2 Hsame)
      as [-> | [-> ->]]; [by left |].
    right. exists "S3". auto.
  - destruct (r ← first_record e2; Py.get r "Sns" VNone) as [sns|]; [|by left].
    rewrite !act_bind_ok.
    destruct (Py.truthy sns); [|by left].
    destruct (handle_sns_first_record ecs
                (get_config environ boto3 (full_config_path environ)) e1 e2 Hsame)
      as [-> | [-> ->]]; [by left |].
    right. exists "SNS". auto.
Qed.

End FirstRecord.

(** C9, as the claim states it, fails: two envelopes with the same first
    record, a deletion in a bucket, one of them with a second record, are
    answered with different results, since the answer quotes the whole
    envelope. *)
Lemma same_first_record_result_differs :
  first_record Fixtures.s3_delete = first_record Fixtures.s3_delete_twice ∧
  first_record Fixtures.s3_delete
    = Ok (Fixtures.s3_record "ObjectRemoved:Delete" "abc123.tar.gz") ∧
  outcome (lambda_handler Fixtures.environ Fixtures.boto3 Fixtures.s3_delete)
  ≠ outcome (lambda_handler Fixtures.environ Fixtures.boto3 Fixtures.s3_delete_twice).
Proof.
  split_and!; [reflexivity | reflexivity |].
  vm_compute. discriminate.
Qed.

(** C9, amended. Two envelopes with the same first record make the same
    launches; they end in the same result or the same exception, except
    when nothing is launched for a storage or topic event, where each
    result is the same phrase followed by the text of its own envelope. *)
Theorem same_first_record_same_launches
    (environ : gmap string string) (boto3 : sdk) (e1 e2 r : value) :
  first_record e1 = Ok r →
  first_record e2 = Ok r →
  launches (lambda_handler environ boto3 e1)
    = launches (lambda_handler environ boto3 e2) ∧
  (outcome (lambda_handler environ boto3 e1)
     = outcome (lambda_handler environ boto3 e2) ∨
   ∃ source, (source = "S3" ∨ source = "SNS") ∧
     ∀ e, e = e1 ∨ e = e2 →
       launches (lambda_handler environ boto3 e) = [] ∧
       outcome (lambda_handler environ boto3 e)
         = Ok (Py.json_dumps
                 (VStr ("Nothing to do for " +:+ source +:+ " event: " +:+ Py.str e)))).
Proof.
  intros H1 H2.
  destruct (lambda_handler_first_record environ boto3 e1 e2) as
    [-> | (source & Hsource & Hl1 & Hl2)]; [congruence | by auto |].
  rewrite Hl1, Hl2. split; [done |].
  right. exists source. split; [done |].
  by intros e [-> | ->]; rewrite ?Hl1, ?Hl2.
Qed.

Lemma same_first_record_same_launches_witness :
  launches (lambda_handler Fixtures.environ Fixtures.boto3 Fixtures.s3_delete)
    = launches (lambda_handler Fixtures.environ Fixtures.boto3 Fixtures.s3_delete_twice).
Proof.
  refine (proj1 (same_first_record_same_launches
            Fixtures.environ Fixtures.boto3
            Fixtures.s3_delete Fixtures.s3_delete_twice
            (Fixtures.s3_record "ObjectRemoved:Delete" "abc123.tar.gz")
            eq_refl eq_refl)).
Defined.

(** *** Precedence of the storage shape *)

(** The storage branch reads two entries of the first record, [eventName]
    and [s3]. *)
Lemma handle_s3_entries ecs config e1 e2 d1 d2 :
  first_record e1 = Ok (VDict d1) →
  first_record e2 = Ok (VDict d2) →
  Py.dict_get "eventName" d1 = Py.dict_get "eventName" d2 →
  Py.dict_get "s3" d1 = Py.dict_get "s3" d2 →
  handle_s3 ecs config e1 = handle_s3 ecs config e2 ∨
  handle_s3 ecs config e1 = nothing_to_do "S3" e1 ∧
  handle_s3 ecs config e2 = nothing_to_do "S3" e2.
Proof.
  unfold handle_s3. intros -> -> Hname Hs3. simpl. rewrite Hname, Hs3.
  destruct (Py.dict_get "eventName" d2) as [event_type|]; [|by left].
  unfold lift. rewrite !act_bind_ok.
  destruct (Py.eq_str event_type "ObjectCreated:Put" || _); [by left | by right].
Qed.

Example handler_s3_and_sns_fixture :
  launches (lambda_handler Fixtures.environ Fixtures.boto3 Fixtures.both)
  = launches (run_task Fixtures.ecs_echo
                (get_config Fixtures.environ Fixtures.boto3
                   (full_config_path Fixtures.environ))
                (VStr "ursa_major") (package_id_only (VStr "a"))).
Proof. vm_compute. reflexivity. Qed.

(** C10. The shape of an envelope is decided by the truthiness of two
    entries of its first record, [s3] first.  With a truthy [s3] and an
    [Sns] entry the handler takes the storage branch, and whatever stands
    under [Sns] changes neither the launches nor the kind of result.  With
    an [s3] entry that is present and falsy the handler does not take the
    storage branch: it goes on to the test of [Sns]. *)
Theorem storage_shape_takes_precedence
    (environ : gmap string string) (boto3 : sdk) (ecs : ecs_client) :
  client_ecs boto3 (region_name environ) = Ok ecs →
  (∀ event d s3 sns,
     first_record event = Ok (VDict d) →
     Py.dict_get "s3" d = Some s3 →
     Py.truthy s3 = true →
     Py.dict_get "Sns" d = Some sns →
     lambda_handler environ boto3 event
       = respond (handle_s3 ecs (get_config environ boto3 (full_config_path environ))
                    event) ∧
     ∀ event' d',
       first_record event' = Ok (VDict d') →
       (∀ k, k ≠ "Sns" → Py.dict_get k d' = Py.dict_get k d) →
       launches (lambda_handler environ boto3 event')
         = launches (lambda_handler environ boto3 event) ∧
       (outcome (lambda_handler environ boto3 event')
          = outcome (lambda_handler environ boto3 event) ∨
        ∀ e, e = event ∨ e = event' →
          outcome (lambda_handler environ boto3 e)
            = Ok (Py.json_dumps
                    (VStr ("Nothing to do for S3 event: " +:+ Py.str e))))) ∧
  (∀ event d s3,
     first_record event = Ok (VDict d) →
     Py.dict_get "s3" d = Some s3 →
     Py.truthy s3 = false →
     lambda_handler environ boto3 event
       = if Py.truthy (default VNone (Py.dict_get "Sns" d))
         then respond (handle_sns ecs
                         (get_config environ boto3 (full_config_path environ)) event)
         else raise (GenericException "Unsure how to parse message")).
Proof.
  intros Hecs. split.
  - intros event d s3 sns Hr Hget Hs3 Hsns.
    assert (lambda_handler environ boto3 event
            = respond (handle_s3 ecs
                         (get_config environ boto3 (full_config_path environ)) event))
      as Hevent by (apply (route_storage environ boto3 ecs Hecs event d Hr);
                    by rewrite Hget).
    split; [done |].
    intros event' d' Hr' Hsame.
    assert (lambda_handler environ boto3 event'
            = respond (handle_s3 ecs
                         (get_config environ boto3 (full_config_path environ)) event'))
      as Hevent' by (apply (route_storage environ boto3 ecs Hecs event' d' Hr');
                     by rewrite (Hsame "s3"), Hget).
    rewrite Hevent, Hevent'.
    destruct (handle_s3_entries ecs
                (get_config environ boto3 (full_config_path environ))
                event' event d' d Hr' Hr) as [-> | [Hl' Hl]];
      [by apply Hsame | by apply Hsame | by auto |].
    rewrite Hl, Hl'. split; [done |].
    right. by intros e [-> | ->]; rewrite ?Hevent, ?Hevent', ?Hl, ?Hl'.
  - intros event d s3 Hr Hget Hs3.
    destruct (Py.truthy (default VNone (Py.dict_get "Sns" d))) eqn:Hsns.
    + apply (route_topic environ boto3 ecs Hecs event d Hr); [|done].
      by rewrite Hget.
    + apply (route_neither environ boto3 ecs Hecs event d Hr); [|done].
      by rewrite Hget.
Qed.

Lemma storage_shape_takes_precedence_witness :
  lambda_handler Fixtures.environ Fixtures.boto3 Fixtures.both
  = respond (handle_s3 Fixtures.ecs_echo
               (get_config Fixtures.environ Fixtures.boto3
                  (full_config_path Fixtures.environ))
               Fixtures.both) ∧
  lambda_handler Fixtures.environ Fixtures.boto3 Fixtures.empty_s3
  = raise (GenericException "Unsure how to parse message").
Proof.
  split.
  - refine (proj1 (proj1 (storage_shape_takes_precedence
              Fixtures.environ Fixtures.boto3 Fixtures.ecs_echo eq_refl)
              Fixtures.both Fixtures.both_record
              (VDict [("object", VDict [("key", VStr "a.b.tif")])])
              (VDict [("MessageAttributes", VDict Fixtures.start_attributes)])
              eq_refl eq_refl eq_refl eq_refl)).
  - refine (proj2 (storage_shape_takes_precedence
              Fixtures.environ Fixtures.boto3 Fixtures.ecs_echo eq_refl)
              Fixtures.empty_s3 Fixtures.empty_s3_record (VDict [])
              eq_refl eq_refl eq_refl).
Defined.

(** ** Further properties of [get_config] *)

Lemma section_name_no_slash (name : string) :
  Py.contains_char "/" (section_name_of name) = false.
Proof.
  unfold section_name_of.
  by destruct (split_str_last "/" name) as (seg & -> & Hseg & _).
Qed.

(** A turn of the loop that succeeds stores one value under a final
    segment. *)
Lemma load_param_stores param (configuration configuration' : gmap string value) :
  load_param param configuration = Ok configuration' →
  ∃ name v, configuration' = <[section_name_of name := v]> configuration.
Proof.
  unfold load_param. destruct param as [| | | | |d|]; try done. simpl.
  destruct (from_option id VNone (Py.dict_get "Name" d)) as [| | |name| | |];
    try done.
  simpl. destruct (split_str_last "/" name) as (seg & Hlast & _).
  rewrite (index_final _ _ Hlast). simpl. intros [= <-].
  exists name. eexists. unfold section_name_of. by rewrite Hlast.
Qed.

(** A turn of the loop on an entry without a usable name raises. *)
Lemma load_param_raises param (configuration : gmap string value) :
  store_entry param = None →
  raises (load_param param configuration) = true.
Proof.
  unfold load_param, store_entry. destruct param as [| | | | |d|]; try done.
  simpl. by destruct (Py.dict_get "Name" d) as [[| | |name| | |]|].
Qed.

Lemma load_params_keys (P : string → Prop) params (configuration : gmap string value) :
  (∀ name, P (section_name_of name)) →
  (∀ k, is_Some (configuration !! k) → P k) →
  ∀ k, is_Some ((load_params params configuration).1 !! k) → P k.
Proof.
  intros Hseg. revert configuration.
  induction params as [|param params IH]; intros configuration Hkeys; simpl;
    [done |].
  destruct (load_param param configuration) as [configuration'|] eqn:Hparam;
    [|done].
  apply IH. destruct (load_param_stores _ _ _ Hparam) as (name & v & ->).
  intros k. destruct (decide (section_name_of name = k)) as [<-|Hne]; [done |].
  rewrite lookup_insert_ne by done. apply Hkeys.
Qed.

Lemma load_params_stops good bad rest entries (configuration : gmap string value) :
  mapM store_entry good = Some entries →
  store_entry bad = None →
  (load_params (good ++ bad :: rest) configuration).1
  = foldl store configuration entries.
Proof.
  intros Hentries%mapM_Some Hbad. revert configuration.
  induction Hentries as [|param entry good entries Hparam _ IH];
    intros configuration; simpl.
  - pose proof (load_param_raises bad configuration Hbad).
    by destruct (load_param bad configuration).
  - rewrite (load_param_entry _ _ _ Hparam). apply IH.
Qed.

Lemma foldl_store_other entries (configuration : gmap string value) k :
  (∀ name v, (name, v) ∈ entries → section_name_of name ≠ k) →
  foldl store configuration entries !! k = configuration !! k.
Proof.
  revert configuration.
  induction entries as [|[name v] entries IH]; intros configuration Hother; simpl;
    [done |].
  rewrite IH by (intros name' v' Hin; apply (Hother name' v'); by right).
  unfold store. simpl. rewrite lookup_insert_ne; [done |].
  apply (Hother name v). by left.
Qed.

(** X1. Whatever the store answers, no key of the configuration holds a
    [/]. *)
Theorem get_config_keys_no_slash
    (environ : gmap string string) (boto3 : sdk) (path k : string) :
  is_Some (get_config environ boto3 path !! k) →
  Py.contains_char "/" k = false.
Proof.
  unfold get_config.
  destruct (client_ssm boto3 (region_name environ)) as [ssm|]; simpl; [|by intros []].
  destruct (get_parameters_by_path ssm path false true) as [resp|]; simpl;
    [|by intros []].
  destruct (Py.get resp "Parameters" (VList [])) as [parameters|]; simpl;
    [|by intros []].
  destruct (Py.iter parameters) as [params|]; simpl; [|by intros []].
  destruct (load_params params ∅) as [configuration e] eqn:Hload.
  intros Hk.
  apply (load_params_keys (fun k => Py.contains_char "/" k = false) params ∅).
  - apply section_name_no_slash.
  - by intros k' [].
  - by rewrite Hload.
Qed.

Lemma get_config_keys_no_slash_witness :
  Py.contains_char "/" "ECS_CLUSTER" = false.
Proof.
  apply (get_config_keys_no_slash
           Fixtures.environ Fixtures.boto3 "/dev/digital_ingest_trigger").
  vm_compute. eauto.
Defined.

(** X2. When several entries of the answer end in the same segment, the
    last of them gives the value: an entry whose final segment no later
    entry shares is found under that segment with its own value. *)
Theorem get_config_last_entry_wins
    (environ : gmap string string) (boto3 : sdk) (path : string)
    (resp : value) (params : list value)
    (before after : list (string * value)) (name k : string) (v : value) :
  fetch environ boto3 path = Ok resp →
  Py.get resp "Parameters" (VList []) = Ok (VList params) →
  mapM store_entry params = Some (before ++ (name, v) :: after) →
  after_last "/" name k →
  (∀ name' v', (name', v') ∈ after → ¬ after_last "/" name' k) →
  get_config environ boto3 path !! k = Some v.
Proof.
  intros Hfetch Hget Hentries Hk%after_last_section_name Hafter.
  rewrite (get_config_entries _ _ _ _ _ _ Hfetch Hget Hentries).
  rewrite foldl_app. simpl. rewrite foldl_store_other.
  - unfold store. simpl. subst k. apply lookup_insert_eq.
  - intros name' v' Hin Hseg. apply (Hafter name' v' Hin).
    by apply after_last_section_name.
Qed.

Lemma get_config_last_entry_wins_witness :
  get_config Fixtures.environ Edge.boto3_shadowed "/dev/digital_ingest_trigger"
    !! "ECS_CLUSTER" = Some (VStr "new").
Proof.
  refine (get_config_last_entry_wins
            Fixtures.environ Edge.boto3_shadowed "/dev/digital_ingest_trigger"
            _ _
            [("/dev/digital_ingest_trigger/ECS_CLUSTER", VStr "old");
             ("/dev/digital_ingest_trigger/ECS_SUBNET", VStr "subnet")]
            [] "/dev/digital_ingest_trigger/next/ECS_CLUSTER" "ECS_CLUSTER"
            (VStr "new") eq_refl eq_refl eq_refl _ _).
  - split; [reflexivity |]. right. by exists "/dev/digital_ingest_trigger/next".
  - by intros name' v' Hin%elem_of_nil.
Defined.

(** X3. An entry that is no object or has no text under [Name] ends the
    loop: the configuration holds the entries before it, stored in order,
    and nothing of what follows. *)
Theorem get_config_stops_at_malformed
    (environ : gmap string string) (boto3 : sdk) (path : string)
    (resp bad : value) (good rest : list value) (entries : list (string * value)) :
  fetch environ boto3 path = Ok resp →
  Py.get resp "Parameters" (VList []) = Ok (VList (good ++ bad :: rest)) →
  mapM store_entry good = Some entries →
  store_entry bad = None →
  get_config environ boto3 path = foldl store ∅ entries.
Proof.
  unfold fetch, get_config. intros Hfetch Hget Hentries Hbad.
  destruct (client_ssm boto3 (region_name environ)) as [ssm|]; [|done].
  simpl in *. rewrite Hfetch. simpl. rewrite Hget. simpl.
  pose proof (load_params_stops good bad rest entries ∅ Hentries Hbad) as Hstop.
  by destruct (load_params (good ++ bad :: rest) ∅).
Qed.

Lemma get_config_stops_at_malformed_witness :
  get_config Fixtures.environ Edge.boto3_nameless "/dev/digital_ingest_trigger"
  = foldl store ∅ [("/dev/digital_ingest_trigger/foo", VStr "bar")].
Proof.
  refine (get_config_stops_at_malformed
            Fixtures.environ Edge.boto3_nameless "/dev/digital_ingest_trigger"
            _ (VDict [("Value", VStr "lost")])
            [Fixtures.parameter "/dev/digital_ingest_trigger/foo" "bar"]
            [Fixtures.parameter "/dev/digital_ingest_trigger/baz" "buzz"]
            _ eq_refl eq_refl eq_refl eq_refl).
Defined.

(** X4. An answer that is no object, or an object without [Parameters],
    gives the empty configuration. *)
Theorem get_config_without_parameters
    (environ : gmap string string) (boto3 : sdk) (path : string) (resp : value) :
  fetch environ boto3 path = Ok resp →
  (∀ d, resp = VDict d → Py.dict_get "Parameters" d = None) →
  get_config environ boto3 path = ∅.
Proof.
  unfold fetch, get_config. intros Hfetch Hnone.
  destruct (client_ssm boto3 (region_name environ)) as [ssm|]; [|done].
  simpl in *. rewrite Hfetch. simpl.
  destruct resp as [| | | | |d|]; try done.
  simpl. by rewrite (Hnone d eq_refl).
Qed.

Lemma get_config_without_parameters_witness :
  get_config Fixtures.environ Edge.boto3_bare "/dev/digital_ingest_trigger" = ∅.
Proof.
  apply (get_config_without_parameters
           Fixtures.environ Edge.boto3_bare "/dev/digital_ingest_trigger"
           (VDict [("NextToken", VStr "t")]) eq_refl).
  by intros d [= <-].
Defined.

(** ** Further properties of [lambda_handler] *)

(** *** The launches of one invocation *)

Lemma handle_s3_launch ecs config event :
  launches (handle_s3 ecs config event) = [] ∨
  ∃ package_id,
    handle_s3 ecs config event
    = run_task ecs config (VStr "ursa_major") (package_environment (VStr package_id)).
Proof.
  unfold handle_s3.
  destruct (r ← first_record event; Py.getitem r "eventName") as [event_type|];
    [|by left].
  unfold lift. rewrite act_bind_ok.
  destruct (Py.in_strs event_type _); [|by left].
  match goal with |- context [Act [] ?r] => destruct r as [package_id|] end;
    [|by left].
  right. exists package_id. by rewrite act_bind_ok.
Qed.

Lemma handle_sns_launch ecs config event :
  launches (handle_sns ecs config event) = [] ∨
  ∃ task_definition package_id,
    handle_sns ecs config event
    = run_task ecs config task_definition (package_environment package_id).
Proof.
  unfold handle_sns.
  destruct (r ← first_record event; sns ← Py.getitem r "Sns";
            Py.getitem sns "MessageAttributes") as [attributes|]; [|by left].
  unfold lift. rewrite act_bind_ok.
  destruct (a ← Py.get attributes "package_id" (VDict []); Py.get a "Value" VNone)
    as [package_id|]; [|by left].
  rewrite act_bind_ok.
  destruct (a ← Py.get attributes "requested_status" (VDict []);
            Py.get a "Value" VNone) as [status|]; [|by left].
  rewrite act_bind_ok.
  destruct (Py.eq_str status START_STATUS); [|by left].
  destruct (service ← Py.getitem attributes "service"; Py.getitem service "Value")
    as [task_definition|]; [|by left].
  right. exists task_definition, package_id. by rewrite act_bind_ok.
Qed.

(** An invocation launches nothing, or is one call of [run_task] with the
    fetched configuration and an environment of one entry. *)
Lemma lambda_handler_launch environ boto3 event :
  launches (lambda_handler environ boto3 event) = [] ∨
  ∃ ecs task_definition package_id,
    client_ecs boto3 (region_name environ) = Ok ecs ∧
    lambda_handler environ boto3 event
    = respond (run_task ecs (get_config environ boto3 (full_config_path environ))
                 task_definition (package_environment package_id)).
Proof.
  unfold lambda_handler.
  destruct (client_ecs boto3 (region_name environ)) as [ecs|]; [|by left].
  unfold lift. rewrite act_bind_ok.
  destruct (r ← first_record event; Py.get r "s3" VNone) as [s3|]; [|by left].
  rewrite act_bind_ok.
  destruct (Py.truthy s3).
  - destruct (handle_s3_launch ecs
                (get_config environ boto3 (full_config_path environ)) event)
      as [Hnone | [package_id Hlaunch]].
    + left. by rewrite <- Hnone, <- launches_respond.
    + right. exists ecs, (VStr "ursa_major"), (VStr package_id).
      by rewrite Hlaunch.
  - destruct (r ← first_record event; Py.get r "Sns" VNone) as [sns|]; [|by left].
    rewrite act_bind_ok.
    destruct (Py.truthy sns); [|by left].
    destruct (handle_sns_launch ecs
                (get_config environ boto3 (full_config_path environ)) event)
      as [Hnone | (task_definition & package_id & Hlaunch)].
    + left. by rewrite <- Hnone, <- launches_respond.
    + right. exists ecs, task_definition, package_id. by rewrite Hlaunch.
Qed.

(** X5. Whatever the event, the store and the orchestrator, one invocation
    makes at most one launch. *)
Theorem handler_at_most_one_launch
    (environ : gmap string string) (boto3 : sdk) (event : value) :
  (length (launches (lambda_handler environ boto3 event)) ≤ 1)%nat.
Proof.
  destruct (lambda_handler_launch environ boto3 event)
    as [-> | (ecs & task_definition & package_id & _ & ->)]; [simpl; lia |].
  rewrite launches_respond. simpl. lia.
Qed.

(** X6. When an invocation makes a launch, what it returns is the JSON
    text of the orchestrator's answer to that launch, and what it raises is
    the exception the orchestrator raised. *)
Theorem handler_returns_launch_answer
    (environ : gmap string string) (boto3 : sdk) (ecs : ecs_client)
    (event : value) (request : run_task_kwargs) :
  client_ecs boto3 (region_name environ) = Ok ecs →
  launches (lambda_handler environ boto3 event) = [request] →
  outcome (lambda_handler environ boto3 event)
  = match ecs_run_task ecs request with
    | Ok answer => Ok (Py.json_dumps answer)
    | Raise e => Raise e
    end.
Proof.
  intros Hecs.
  destruct (lambda_handler_launch environ boto3 event)
    as [-> | (ecs' & task_definition & package_id & Hecs' & ->)]; [done |].
  rewrite Hecs in Hecs'. injection Hecs' as <-.
  rewrite launches_respond, outcome_respond. by intros [= <-].
Qed.

Lemma handler_returns_launch_answer_witness :
  outcome (lambda_handler Fixtures.environ Edge.boto3_refuses Fixtures.s3_put)
  = Raise (ServiceError "ClusterNotFoundException").
Proof.
  apply (handler_returns_launch_answer
           Fixtures.environ Edge.boto3_refuses Edge.ecs_refuses
           Fixtures.s3_put Edge.put_request); reflexivity.
Defined.

(** X7. Every launch an invocation makes asks for one [FARGATE] task
    started by [lambda/digital_ingest_trigger], in the cluster and the only
    subnet the fetched configuration names, with one container override,
    named as the task definition, whose environment is the single entry
    [PACKAGE_ID]. *)
Theorem every_launch_shape
    (environ : gmap string string) (boto3 : sdk)
    (event : value) (request : run_task_kwargs) :
  request ∈ launches (lambda_handler environ boto3 event) →
  cluster request
    = default VNone (get_config environ boto3 (full_config_path environ)
                       !! "ECS_CLUSTER") ∧
  vpc_field request "subnets"
    = Ok (VList [default VNone (get_config environ boto3 (full_config_path environ)
                                  !! "ECS_SUBNET")]) ∧
  launchType request = VStr "FARGATE" ∧
  count request = VInt 1 ∧
  startedBy request = VStr "lambda/digital_ingest_trigger" ∧
  ∃ package_id,
    container_overrides request
    = Ok (single_override (taskDefinition request) (package_id_only package_id)).
Proof.
  destruct (lambda_handler_launch environ boto3 event)
    as [-> | (ecs & task_definition & package_id & _ & ->)];
    [by intros ?%elem_of_nil |].
  rewrite launches_respond. intros ->%list_elem_of_singleton.
  split_and!; try done. by exists package_id.
Qed.

Lemma every_launch_shape_witness :
  cluster Edge.put_request
    = default VNone (get_config Fixtures.environ Fixtures.boto3
                       (full_config_path Fixtures.environ) !! "ECS_CLUSTER") ∧
  vpc_field Edge.put_request "subnets"
    = Ok (VList [default VNone (get_config Fixtures.environ Fixtures.boto3
                                  (full_config_path Fixtures.environ)
                                  !! "ECS_SUBNET")]) ∧
  launchType Edge.put_request = VStr "FARGATE" ∧
  count Edge.put_request = VInt 1 ∧
  startedBy Edge.put_request = VStr "lambda/digital_ingest_trigger" ∧
  ∃ package_id,
    container_overrides Edge.put_request
    = Ok (single_override (taskDefinition Edge.put_request)
            (package_id_only package_id)).
Proof.
  apply (every_launch_shape Fixtures.environ Fixtures.boto3 Fixtures.s3_put).
  vm_compute. left.
Defined.



(** *** Events that cannot be read *)

Lemma respond_raise (e : exn) : respond (raise e) = raise e.
Proof. reflexivity. Qed.

(** X9. An event without [Records] raises [KeyError], an event whose
    [Records] is an empty list raises [IndexError]; neither launches. *)
Theorem envelope_without_first_record
    (environ : gmap string string) (boto3 : sdk) (ecs : ecs_client)
    (d : list (string * value)) :
  client_ecs boto3 (region_name environ) = Ok ecs →
  (Py.dict_get "Records" d = None →
   lambda_handler environ boto3 (VDict d) = raise (KeyError (VStr "Records"))) ∧
  (Py.dict_get "Records" d = Some (VList []) →
   lambda_handler environ boto3 (VDict d) = raise IndexError).
Proof.
  intros Hecs. unfold lambda_handler, first_record. rewrite Hecs.
  split; intros Hrecords; simpl; rewrite Hrecords; by act_simpl.
Qed.

Lemma envelope_without_first_record_witness :
  lambda_handler Fixtures.environ Fixtures.boto3 (VDict Edge.no_records)
    = raise (KeyError (VStr "Records")) ∧
  lambda_handler Fixtures.environ Fixtures.boto3 (VDict Edge.empty_records)
    = raise IndexError.
Proof.
  split.
  - refine (proj1 (envelope_without_first_record
              Fixtures.environ Fixtures.boto3 Fixtures.ecs_echo Edge.no_records
              eq_refl) eq_refl).
  - refine (proj2 (envelope_without_first_record
              Fixtures.environ Fixtures.boto3 Fixtures.ecs_echo Edge.empty_records
              eq_refl) eq_refl).
Defined.

(** X10. A creation event whose object key cannot be read, or is no text,
    raises before any launch: the lookup's own exception in the first case,
    [AttributeError] for [split] in the second. *)
Theorem storage_created_unusable_key
    (environ : gmap string string) (boto3 : sdk) (ecs : ecs_client)
    (event : value) (name : string) :
  client_ecs boto3 (region_name environ) = Ok ecs →
  is_storage_event event = true →
  event_name event = Ok (VStr name) →
  name = "ObjectCreated:Put" ∨ name = "ObjectCreated:CompleteMultipartUpload" →
  (∀ e, object_key event = Raise e →
        lambda_handler environ boto3 event = raise e) ∧
  (∀ v, object_key event = Ok v → (∀ key, v ≠ VStr key) →
        lambda_handler environ boto3 event = raise (AttributeError "split")).
Proof.
  intros Hecs (d & s3 & Hr & Hget & Hs3)%storage_event_inv Hname Htrigger.
  rewrite (route_storage environ boto3 ecs Hecs event d Hr) by by rewrite Hget.
  unfold event_name, object_key, handle_s3 in *. rewrite Hr in *. simpl in *.
  rewrite Hname, Hget. unfold lift. rewrite act_bind_ok.
  assert ((Py.eq_str (VStr name) "ObjectCreated:Put"
           || (Py.eq_str (VStr name) "ObjectCreated:CompleteMultipartUpload"
               || false)) = true)
    as -> by (by destruct Htrigger as [-> | ->]).
  simpl. split.
  - intros e Hkey.
    destruct (Py.getitem s3 "object") as [object|]; simpl in *.
    + by rewrite Hkey.
    + by injection Hkey as ->.
  - intros v Hkey Hv.
    destruct (Py.getitem s3 "object") as [object|]; simpl in *; [|done].
    rewrite Hkey. simpl.
    destruct v as [| | |key| | |]; try done. by destruct (Hv key).
Qed.

Lemma storage_created_unusable_key_witness :
  lambda_handler Fixtures.environ Fixtures.boto3
    (Fixtures.envelope [VDict Edge.keyless_record])
    = raise (KeyError (VStr "key")) ∧
  lambda_handler Fixtures.environ Fixtures.boto3
    (Fixtures.envelope [VDict Edge.numbered_record])
    = raise (AttributeError "split").
Proof.
  split.
  - refine (proj1 (storage_created_unusable_key
              Fixtures.environ Fixtures.boto3 Fixtures.ecs_echo
              (Fixtures.envelope [VDict Edge.keyless_record]) "ObjectCreated:Put"
              eq_refl eq_refl eq_refl (or_introl eq_refl))
              (KeyError (VStr "key")) eq_refl).
  - refine (proj2 (storage_created_unusable_key
              Fixtures.environ Fixtures.boto3 Fixtures.ecs_echo
              (Fixtures.envelope [VDict Edge.numbered_record]) "ObjectCreated:Put"
              eq_refl eq_refl eq_refl (or_introl eq_refl))
              (VInt 7) eq_refl _).
    intros key. discriminate.
Defined.

(** X11. A storage event whose first record has no [eventName] raises
    [KeyError] and launches nothing. *)
Theorem storage_without_event_name
    (environ : gmap string string) (boto3 : sdk) (ecs : ecs_client)
    (event : value) (d : list (string * value)) :
  client_ecs boto3 (region_name environ) = Ok ecs →
  is_storage_event event = true →
  first_record event = Ok (VDict d) →
  Py.dict_get "eventName" d = None →
  lambda_handler environ boto3 event = raise (KeyError (VStr "eventName")).
Proof.
  intros Hecs (d' & s3 & Hr & Hget & Hs3)%storage_event_inv Hd Hname.
  rewrite Hr in Hd. injection Hd as ->.
  rewrite (route_storage environ boto3 ecs Hecs event d Hr) by by rewrite Hget.
  unfold handle_s3. rewrite Hr. simpl. by rewrite Hname.
Qed.

Lemma storage_without_event_name_witness :
  lambda_handler Fixtures.environ Fixtures.boto3
    (Fixtures.envelope [VDict Edge.nameless_record])
  = raise (KeyError (VStr "eventName")).
Proof.
  apply (storage_without_event_name
           Fixtures.environ Fixtures.boto3 Fixtures.ecs_echo
           (Fixtures.envelope [VDict Edge.nameless_record]) Edge.nameless_record);
    reflexivity.
Defined.

(** X12. A start request without a [service] attribute, or whose
    [service] has no [Value], raises [KeyError] and launches nothing. *)
Theorem topic_start_without_service
    (environ : gmap string string) (boto3 : sdk) (ecs : ecs_client)
    (event : value) (attributes : list (string * value)) :
  client_ecs boto3 (region_name environ) = Ok ecs →
  is_topic_event event = true →
  message_attributes event = Ok (VDict attributes) →
  well_formed_attributes attributes = true →
  attribute_value attributes "requested_status" = Some (VStr "START") →
  (Py.dict_get "service" attributes = None →
   lambda_handler environ boto3 event = raise (KeyError (VStr "service"))) ∧
  (∀ service, Py.dict_get "service" attributes = Some (VDict service) →
              Py.dict_get "Value" service = None →
   lambda_handler environ boto3 event = raise (KeyError (VStr "Value"))).
Proof.
  intros Hecs (d & sns & Hr & Hs3 & Hget & Hsns)%topic_event_inv
    Hattributes Hwf Hstatus.
  rewrite (route_topic environ boto3 ecs Hecs event d Hr Hs3) by by rewrite Hget.
  unfold message_attributes in Hattributes. unfold handle_sns.
  rewrite Hattributes. unfold lift. rewrite act_bind_ok.
  rewrite !(attribute_get _ _ Hwf), !act_bind_ok, Hstatus. simpl.
  split.
  - by intros ->.
  - intros service -> Hvalue. simpl. by rewrite Hvalue.
Qed.

Lemma topic_start_without_service_witness :
  lambda_handler Fixtures.environ Fixtures.boto3
    (Fixtures.envelope [Fixtures.sns_record Edge.serviceless_attributes])
    = raise (KeyError (VStr "service")) ∧
  lambda_handler Fixtures.environ Fixtures.boto3
    (Fixtures.envelope [Fixtures.sns_record Edge.valueless_attributes])
    = raise (KeyError (VStr "Value")).
Proof.
  split.
  - refine (proj1 (topic_start_without_service
              Fixtures.environ Fixtures.boto3 Fixtures.ecs_echo
              (Fixtures.envelope [Fixtures.sns_record Edge.serviceless_attributes])
              Edge.serviceless_attributes eq_refl eq_refl eq_refl eq_refl eq_refl)
              eq_refl).
  - refine (proj2 (topic_start_without_service
              Fixtures.environ Fixtures.boto3 Fixtures.ecs_echo
              (Fixtures.envelope [Fixtures.sns_record Edge.valueless_attributes])
              Edge.valueless_attributes eq_refl eq_refl eq_refl eq_refl eq_refl)
              [("Type", VStr "String")] eq_refl eq_refl).
Defined.

(** X13. A topic event whose [package_id] attribute is not an object
    raises [AttributeError] and launches nothing, whatever its
    [requested_status]: the package is read before the status is tested. *)
Theorem topic_bare_package_id
    (environ : gmap string string) (boto3 : sdk) (ecs : ecs_client)
    (event : value) (attributes : list (string * value)) (v : value) :
  client_ecs boto3 (region_name environ) = Ok ecs →
  is_topic_event event = true →
  message_attributes event = Ok (VDict attributes) →
  Py.dict_get "package_id" attributes = Some v →
  (∀ d, v ≠ VDict d) →
  lambda_handler environ boto3 event = raise (AttributeError "get").
Proof.
  intros Hecs (d & sns & Hr & Hs3 & Hget & Hsns)%topic_event_inv
    Hattributes Hpackage Hv.
  rewrite (route_topic environ boto3 ecs Hecs event d Hr Hs3) by by rewrite Hget.
  unfold message_attributes in Hattributes. unfold handle_sns.
  rewrite Hattributes. unfold lift. rewrite act_bind_ok. simpl.
  rewrite Hpackage. simpl.
  destruct v as [| | | | |d'|]; try done. by destruct (Hv d').
Qed.

Lemma topic_bare_package_id_witness :
  lambda_handler Fixtures.environ Fixtures.boto3
    (Fixtures.envelope [Fixtures.sns_record Edge.bare_attributes])
  = raise (AttributeError "get").
Proof.
  apply (topic_bare_package_id
           Fixtures.environ Fixtures.boto3 Fixtures.ecs_echo
           (Fixtures.envelope [Fixtures.sns_record Edge.bare_attributes])
           Edge.bare_attributes (VStr "xyz")); try reflexivity.
  intros d. discriminate.
Defined.

(** *** What the handler reads of the store *)

Lemma get_config_fetch environ boto3 boto3' path :
  fetch environ boto3 path = fetch environ boto3' path →
  get_config environ boto3 path = get_config environ boto3' path.
Proof.
  unfold fetch, get_config.
  destruct (client_ssm boto3 (region_name environ)) as [ssm|],
           (client_ssm boto3' (region_name environ)) as [ssm'|];
    simpl; intros Hfetch.
  - by rewrite Hfetch.
  - by rewrite Hfetch.
  - by rewrite <- Hfetch.
  - done.
Qed.

(** X14. The handler depends on the store through one answer only, that
    of the non-recursive, decrypting query at the path
    [/ENV/APP_CONFIG_PATH]: two SDKs that hand out the same orchestrator and
    agree on that answer make the handler behave alike on every event. *)
Theorem handler_reads_config_path_only
    (environ : gmap string string) (boto3 boto3' : sdk) (event : value) :
  client_ecs boto3 (region_name environ) = client_ecs boto3' (region_name environ) →
  fetch environ boto3 (full_config_path environ)
    = fetch environ boto3' (full_config_path environ) →
  lambda_handler environ boto3 event = lambda_handler environ boto3' event.
Proof.
  intros Hecs Hfetch. unfold lambda_handler.
  by rewrite Hecs, (get_config_fetch environ boto3 boto3' _ Hfetch).
Qed.

Lemma handler_reads_config_path_only_witness :
  lambda_handler Fixtures.environ Fixtures.boto3 Fixtures.s3_put
  = lambda_handler Fixtures.environ Edge.boto3_elsewhere Fixtures.s3_put.
Proof.
  apply (handler_reads_config_path_only
           Fixtures.environ Fixtures.boto3 Edge.boto3_elsewhere Fixtures.s3_put);
    reflexivity.
Defined.
